(** * Data quality dashboard: metric computations of [DataQualityDashboard]

    A shallow embedding of [data-quality-dashboard.py].  The class keeps a
    pandas [DataFrame] ([self.df]) and a dictionary of computed metrics
    ([self.metrics]); its methods read the frame, sometimes write to it, and
    store their result in the dictionary.  The methods are modelled in a
    state-and-exception monad over the pair (frame, metrics).

    Conventions of the model:
    - integers are [Z]; Python floats and numpy [float64] values are exact
      rationals [Q] next to the special values [nan] and [inf] (rounding of
      binary floating point is not modelled);
    - timestamps and time differences are integers counting nanoseconds,
      with the overflow of the subtraction written out;
    - what the code leaves to pandas and numpy and the model cannot compute
      is a parameter: the date parser of [pd.to_datetime], the [float64]
      mean of the time differences, and the sort of [value_counts];
    - logging and the writing of the report file are left out: they do not
      touch the frame or the metrics. *)

From Stdlib Require Import ZArith QArith Lia Sorted Ascii String.
From stdpp Require Import gmap strings list fin_maps sorting.

Local Open Scope Z_scope.

(** ** Cells, series and frames *)

(** A value held in a column.  [NA] stands for the missing values of pandas
    ([None], [NaN] and [NaT]); [Stamp t] is a [pd.Timestamp], [t] nanoseconds
    after the epoch, without time zone; [StampTz t] is one with a time zone.
    Numbers in the data are integers. *)
Inductive cell : Type :=
  | NA
  | Str (s : string)
  | Int (n : Z)
  | Stamp (t : Z)
  | StampTz (t : Z).

#[global] Instance cell_eq_dec : EqDecision cell.
Proof. solve_decision. Defined.

Inductive dtype : Type :=
  | dt_object
  | dt_int64
  | dt_float64
  | dt_datetime64
  | dt_datetime64tz.

#[global] Instance dtype_eq_dec : EqDecision dtype.
Proof. solve_decision. Defined.

Record Series : Type := mkSeries {
  s_dtype : dtype;
  s_values : list cell
}.

(** A frame: the length of its index and its columns in order. *)
Record DataFrame : Type := mkDataFrame {
  nrows : nat;
  data : list (string * Series)
}.

(** Every column of a frame is as long as the index, and column labels are
    not repeated. *)
Definition wf_df (df : DataFrame) : Prop :=
  Forall (fun c => length (s_values c.2) = nrows df) (data df)
  ∧ NoDup (data df).*1.

(** [len(df)] *)
Definition len_df (df : DataFrame) : Z := Z.of_nat (nrows df).

(** [df.columns] *)
Definition df_columns (df : DataFrame) : list string := (data df).*1.

(** ** Exceptions *)

(** The exceptions the methods can end in; [DateParseError] stands for the
    error [pd.to_datetime] raises on a string it cannot read, [ValueError]
    for the one it raises on a column that mixes dates with and without a
    time zone. *)
Inductive exn : Type :=
  | KeyError (k : string)
  | ZeroDivisionError
  | DateParseError (s : string)
  | ValueError
  | TypeError
  | OverflowError.

Inductive result (A : Type) : Type :=
  | Ok (a : A)
  | Raise (e : exn).
Arguments Ok {A} a.
Arguments Raise {A} e.

Definition rbind {A B} (r : result A) (k : A → result B) : result B :=
  match r with
  | Ok a => k a
  | Raise e => Raise e
  end.

Notation "'let!' x ':=' r 'in' k" := (rbind r (fun x => k))
  (at level 10, x pattern, r at level 100, k at level 200).

(** [df[col]]: the first column labelled [col], [KeyError] without one. *)
Fixpoint lookup_col (cols : list (string * Series)) (col : string)
  : option Series :=
  match cols with
  | [] => None
  | (k, s) :: rest => if decide (k = col) then Some s else lookup_col rest col
  end.

Definition df_getitem (df : DataFrame) (col : string) : result Series :=
  match lookup_col (data df) col with
  | Some s => Ok s
  | None => Raise (KeyError col)
  end.

(** [df[col] = s]: replaces the column in place, appends a new one. *)
Fixpoint assign_col (cols : list (string * Series)) (col : string)
  (s : Series) : list (string * Series) :=
  match cols with
  | [] => [(col, s)]
  | (k, s0) :: rest =>
      if decide (k = col) then (k, s) :: rest
      else (k, s0) :: assign_col rest col s
  end.

Definition df_setitem (df : DataFrame) (col : string) (s : Series)
  : DataFrame :=
  {| nrows := nrows df; data := assign_col (data df) col s |}.

(** ** Numbers *)

(** A numpy [float64]. *)
Inductive float64 : Type :=
  | fin (q : Q)
  | nan
  | inf (positive : bool).

(** [a / b] on a numpy [int64] [a]: division by zero yields [nan] or an
    infinity (with a warning), no exception. *)
Definition np_true_divide (a b : Z) : float64 :=
  if decide (b = 0) then
    if decide (a = 0) then nan else inf (bool_decide (0 < a))
  else fin (inject_Z a / inject_Z b)%Q.

Definition np_mul (x : float64) (k : Z) : float64 :=
  match x with
  | fin q => fin (q * inject_Z k)%Q
  | nan => nan
  | inf p =>
      if decide (k = 0) then nan
      else inf (if decide (0 < k) then p else negb p)
  end.

(** [a / b] on Python integers. *)
Definition py_truediv (a b : Z) : result Q :=
  if decide (b = 0) then Raise ZeroDivisionError
  else Ok (inject_Z a / inject_Z b)%Q.

(** ** The dashboard *)

(** [isna] and [notna] of pandas, as predicates on one cell. *)
Definition isna (c : cell) : Prop := c = NA.
Definition notna (c : cell) : Prop := c ≠ NA.

#[global] Instance isna_dec c : Decision (isna c).
Proof. unfold isna. apply _. Defined.
#[global] Instance notna_dec c : Decision (notna c).
Proof. unfold notna. apply _. Defined.

(** [Series.count()]: the number of cells that are not missing. *)
Definition series_count (s : Series) : Z :=
  Z.of_nat (length (filter notna (s_values s))).

(** The [.days] attribute: an integer on a [Timedelta], the float [NaN] on
    [NaT]. *)
Inductive day_count : Type :=
  | Days (n : Z)
  | DaysNaN.

Record timeliness_metrics : Type := mkTimeliness {
  average_age_days : day_count;
  oldest_record_days : day_count;
  newest_record_days : day_count
}.

Record consistency_entry : Type := mkConsistency {
  unique_values : Z;
  unique_ratio : Q;
  most_common : list (cell * Z)
}.

(** [self.metrics]: a dictionary with at most the three keys
    ['completeness'], ['timeliness'] and ['consistency']. *)
Record Metrics : Type := mkMetrics {
  m_completeness : option (gmap string float64);
  m_timeliness : option timeliness_metrics;
  m_consistency : option (gmap string consistency_entry)
}.

Definition no_metrics : Metrics :=
  {| m_completeness := None; m_timeliness := None; m_consistency := None |}.

(** The report as [generate_report] returns it; [report_generated] is the
    clock reading the timestamp string is made from. *)
Record Report : Type := mkReport {
  report_generated : Z;
  dataset_size : Z;
  report_metrics : Metrics
}.

Record Dashboard : Type := mkDashboard {
  df : DataFrame;
  metrics : Metrics
}.

(** A method: from the object's state to an outcome and the state left
    behind (also when the outcome is an exception). *)
Definition method (A : Type) : Type := Dashboard → result A * Dashboard.

Definition mbind {A B} (m : method A) (k : A → method B) : method B :=
  fun self =>
    match m self with
    | (Ok a, self') => k a self'
    | (Raise e, self') => (Raise e, self')
    end.

Notation "'do!' x ':=' m 'in' k" := (mbind m (fun x => k))
  (at level 10, x pattern, m at level 100, k at level 200).

(** [not xs] for an optional list argument: true for [None] and for []. *)
Definition py_not {A} (xs : option (list A)) : bool :=
  match xs with
  | None | Some [] => true
  | Some (_ :: _) => false
  end.

(** The idiom [if not xs: xs = d]. *)
Definition or_default {A} (xs : option (list A)) (d : list A) : list A :=
  if py_not xs then d else default [] xs.

Definition completeness_score (frame : DataFrame) (s : Series) : float64 :=
  let non_null_count := series_count s in
  let total_count := len_df frame in
  np_mul (np_true_divide non_null_count total_count) 100.

(** The loop of [calculate_completeness]. *)
Fixpoint completeness_loop (frame : DataFrame) (columns : list string)
  (completeness_scores : gmap string float64)
  : result (gmap string float64) :=
  match columns with
  | [] => Ok completeness_scores
  | col :: rest =>
      let! s := df_getitem frame col in
      completeness_loop frame rest
        (<[col := completeness_score frame s]> completeness_scores)
  end.

Definition calculate_completeness (columns : option (list string))
  : method (gmap string float64) := fun self =>
  let columns := or_default columns (df_columns (df self)) in
  match completeness_loop (df self) columns ∅ with
  | Raise e => (Raise e, self)
  | Ok completeness_scores =>
      (Ok completeness_scores,
       {| df := df self;
          metrics := {| m_completeness := Some completeness_scores;
                        m_timeliness := m_timeliness (metrics self);
                        m_consistency := m_consistency (metrics self) |} |})
  end.

(** *** Consistency *)

(** Counting as the hash table of [value_counts] does it: a value met for
    the first time goes to the end of the table with count 1, a value
    already there has its count raised. *)
Fixpoint count_add (v : cell) (tbl : list (cell * Z)) : list (cell * Z) :=
  match tbl with
  | [] => [(v, 1)]
  | (k, c) :: rest =>
      if decide (k = v) then (k, c + 1) :: rest
      else (k, c) :: count_add v rest
  end.

Definition count_table (vals : list cell) : list (cell * Z) :=
  foldl (fun tbl v => count_add v tbl) [] vals.

(** The order [sort_values(ascending=False)] leaves the counts in. *)
Definition by_count_desc (p q : cell * Z) : Prop := q.2 ≤ p.2.

(** [sort_values(ascending=False)] on the counts.  [value_counts] sorts
    with the default [kind] of numpy, which is not stable: the counts come
    out in descending order, and the order it leaves entries of equal
    count in depends on the numpy build.  A sort is therefore any function
    that permutes the table and leaves the counts descending. *)
Record sort_kind : Type := {
  sort_values_desc : list (cell * Z) → list (cell * Z);
  sort_values_desc_perm : ∀ l, sort_values_desc l ≡ₚ l;
  sort_values_desc_sorted :
    ∀ l, StronglySorted by_count_desc (sort_values_desc l)
}.

Section Consistency.

(** The sort of numpy, taken as given. *)
Variable kind : sort_kind.

(** [Series.value_counts()]: missing values are dropped ([dropna=True]),
    the other values counted and the counts sorted, largest first. *)
Definition value_counts (s : Series) : list (cell * Z) :=
  sort_values_desc kind (count_table (filter notna (s_values s))).

(** [df.select_dtypes(include=['object']).columns] *)
Definition select_dtypes_object (frame : DataFrame) : list string :=
  (filter (fun c => s_dtype c.2 = dt_object) (data frame)).*1.

(** The body of the loop of [calculate_consistency] for one column;
    [head(3).to_dict()] keeps the first three entries in their order. *)
Definition consistency_of (frame : DataFrame) (s : Series)
  : result consistency_entry :=
  let value_counts := value_counts s in
  let! ratio := py_truediv (Z.of_nat (length value_counts)) (len_df frame) in
  let unique_ratio := (ratio * 100)%Q in
  Ok {| unique_values := Z.of_nat (length value_counts);
        unique_ratio := unique_ratio;
        most_common := take 3 value_counts |}.

Fixpoint consistency_loop (frame : DataFrame) (columns : list string)
  (consistency_metrics : gmap string consistency_entry)
  : result (gmap string consistency_entry) :=
  match columns with
  | [] => Ok consistency_metrics
  | col :: rest =>
      let! s := df_getitem frame col in
      let! entry := consistency_of frame s in
      consistency_loop frame rest (<[col := entry]> consistency_metrics)
  end.

Definition calculate_consistency (categorical_columns : option (list string))
  : method (gmap string consistency_entry) := fun self =>
  let categorical_columns :=
    or_default categorical_columns (select_dtypes_object (df self)) in
  match consistency_loop (df self) categorical_columns ∅ with
  | Raise e => (Raise e, self)
  | Ok consistency_metrics =>
      (Ok consistency_metrics,
       {| df := df self;
          metrics := {| m_completeness := m_completeness (metrics self);
                        m_timeliness := m_timeliness (metrics self);
                        m_consistency := Some consistency_metrics |} |})
  end.

End Consistency.

(** *** Dates *)

(** What the date parser of [pd.to_datetime] makes of one string: a
    timestamp without or with a time zone, [NaT] (the empty string and the
    spellings of [NaT] and [NaN] are read as missing), or a failure.  The
    dates with a time zone of one column are taken to be in one zone: what
    pandas makes of a column with several UTC offsets depends on its
    version. *)
Inductive parsed : Type :=
  | Parsed (t : Z)
  | ParsedAware (t : Z)
  | ParsedNaT
  | Unparsable.

Definition ns_per_day : Z := 86400000000000.

(** The largest [int64]; the smallest one stands for [NaT]. *)
Definition i8max : Z := 2 ^ 63 - 1.

Definition in_int64 (z : Z) : Prop := - i8max ≤ z ≤ i8max.

#[global] Instance in_int64_dec z : Decision (in_int64 z).
Proof. unfold in_int64. apply _. Defined.

(** [Timedelta.days]: whole days, rounded towards minus infinity. *)
Definition td_days (td : option Z) : day_count :=
  match td with
  | Some ns => Days (ns `div` ns_per_day)
  | None => DaysNaN
  end.

(** [current_time - t] for one row: a [Timedelta], [NaT] (here [None])
    where the column has no timestamp. *)
Definition td_sub (current_time : Z) (c : cell) : option Z :=
  match c with
  | Stamp t => Some (current_time - t)
  | _ => None
  end.

(** The reductions skip [NaT] and yield [NaT] when nothing is left. *)
Definition dropnat (tds : list (option Z)) : list Z := omap id tds.

Definition is_aware (c : cell) : bool :=
  match c with StampTz _ => true | _ => false end.

Definition is_naive (c : cell) : bool :=
  match c with Stamp _ => true | _ => false end.

(** [current_time - column], with [current_time] a timestamp without time
    zone: [TypeError] against a column with time zone, [OverflowError]
    when a difference does not fit [int64] nanoseconds. *)
Definition time_differences (current_time : Z) (dates : Series)
  : result (list (option Z)) :=
  if existsb is_aware (s_values dates) then Raise TypeError
  else
    let tds := td_sub current_time <$> s_values dates in
    if bool_decide (Forall in_int64 (dropnat tds)) then Ok tds
    else Raise OverflowError.

Definition sum_Z (l : list Z) : Z := foldr Z.add 0 l.

Definition max_Z (l : list Z) : option Z :=
  match l with
  | [] => None
  | x :: rest => Some (foldl Z.max x rest)
  end.

Definition min_Z (l : list Z) : option Z :=
  match l with
  | [] => None
  | x :: rest => Some (foldl Z.min x rest)
  end.

Definition td_max (tds : list (option Z)) : option Z := max_Z (dropnat tds).
Definition td_min (tds : list (option Z)) : option Z := min_Z (dropnat tds).

Section Timeliness.

(** The date parser of pandas, taken as given; every string is parsed on
    its own. *)
Variable parse_datetime : string → parsed.

(** The mean of pandas over a list of [int64] nanoseconds that is not
    empty, taken as given: the values are added and divided in [float64]
    and the outcome is cut to an [int64]. *)
Variable float_mean : list Z → Z.

Definition mean_opt (l : list Z) : option Z :=
  match l with
  | [] => None
  | _ :: _ => Some (float_mean l)
  end.

Definition td_mean (tds : list (option Z)) : option Z :=
  mean_opt (dropnat tds).

(** [pd.to_datetime] on one value, with the default [errors='raise']:
    missing values become [NaT], integers count nanoseconds, timestamps
    stay as they are. *)
Definition to_datetime_cell (c : cell) : result cell :=
  match c with
  | NA => Ok NA
  | Str s =>
      match parse_datetime s with
      | Parsed t => Ok (Stamp t)
      | ParsedAware t => Ok (StampTz t)
      | ParsedNaT => Ok NA
      | Unparsable => Raise (DateParseError s)
      end
  | Int n => Ok (Stamp n)
  | Stamp t => Ok (Stamp t)
  | StampTz t => Ok (StampTz t)
  end.

Fixpoint to_datetime_cells (l : list cell) : result (list cell) :=
  match l with
  | [] => Ok []
  | c :: rest =>
      let! c' := to_datetime_cell c in
      let! rest' := to_datetime_cells rest in
      Ok (c' :: rest')
  end.

(** A column that holds dates with and dates without a time zone is
    refused. *)
Definition to_datetime (s : Series) : result Series :=
  let! cells := to_datetime_cells (s_values s) in
  if existsb is_aware cells && existsb is_naive cells then Raise ValueError
  else
    Ok {| s_dtype := if existsb is_aware cells then dt_datetime64tz
                     else dt_datetime64;
          s_values := cells |}.

(** [calculate_timeliness]; [now] is the reading of [pd.Timestamp.now()].
    [None] is returned (after a warning) without the date column.  The
    parsed dates are written to the frame before the differences are
    taken, and stay there when taking them raises. *)
Definition calculate_timeliness (now : Z) (date_column : string)
  : method (option timeliness_metrics) := fun self =>
  if bool_decide (date_column ∈ df_columns (df self)) then
    match (let! s := df_getitem (df self) date_column in to_datetime s) with
    | Raise e => (Raise e, self)
    | Ok dates =>
        let frame := df_setitem (df self) date_column dates in
        let current_time := now in
        match time_differences current_time dates with
        | Raise e => (Raise e, {| df := frame; metrics := metrics self |})
        | Ok time_differences =>
            let timeliness_metrics :=
              {| average_age_days := td_days (td_mean time_differences);
                 oldest_record_days := td_days (td_max time_differences);
                 newest_record_days := td_days (td_min time_differences) |} in
            (Ok (Some timeliness_metrics),
             {| df := frame;
                metrics :=
                  {| m_completeness := m_completeness (metrics self);
                     m_timeliness := Some timeliness_metrics;
                     m_consistency := m_consistency (metrics self) |} |})
        end
    end
  else (Ok None, self).

(** *** The report *)

(** [not self.metrics] *)
Definition metrics_empty (m : Metrics) : bool :=
  match m_completeness m, m_timeliness m, m_consistency m with
  | None, None, None => true
  | _, _, _ => false
  end.

(** The sort of numpy, as for [calculate_consistency]. *)
Variable kind : sort_kind.

(** [generate_report]: [now] is the clock as [calculate_timeliness] reads
    it, [stamp] the later reading of [datetime.now()].  The writing of the
    file is left out. *)
Definition generate_report (now stamp : Z) : method Report :=
  do! _ := (fun self =>
    if metrics_empty (metrics self) then
      (do! _ := calculate_completeness None in
       do! _ := calculate_timeliness now "created_date" in
       do! _ := calculate_consistency kind None in
       (fun self' => (Ok (), self'))) self
    else (Ok (), self)) in
  (fun self =>
     (Ok {| report_generated := stamp;
            dataset_size := len_df (df self);
            report_metrics := metrics self |}, self)).

End Timeliness.

(** ** A date parser for the examples *)

Definition digit (a : ascii) : option Z :=
  let n := Z.of_N (N_of_ascii a) in
  if bool_decide (48 ≤ n ≤ 57) then Some (n - 48) else None.

Definition is_leap (y : Z) : bool :=
  bool_decide (y `mod` 4 = 0 ∧ (y `mod` 100 ≠ 0 ∨ y `mod` 400 = 0)).

Definition days_in_month (y m : Z) : Z :=
  if bool_decide (m = 2) then (if is_leap y then 29 else 28)
  else if bool_decide (m ∈ [4; 6; 9; 11]) then 30 else 31.

(** Days from 1970-01-01 to the given day of the proleptic Gregorian
    calendar. *)
Definition days_from_civil (y m d : Z) : Z :=
  let y' := if bool_decide (m ≤ 2) then y - 1 else y in
  let era := y' `div` 400 in
  let yoe := y' - era * 400 in
  let mp := if bool_decide (2 < m) then m - 3 else m + 9 in
  let doy := (153 * mp + 2) `div` 5 + d - 1 in
  let doe := yoe * 365 + yoe `div` 4 - yoe `div` 100 + doy in
  era * 146097 + doe - 719468.

(** Calendar dates written [YYYY-MM-DD] (midnight of that day), the empty
    string and the spellings of [NaT]; every other string is refused.
    pandas reads more formats than this; the examples use the parser only
    on strings both treat alike. *)
Definition parse_iso_date (s : string) : parsed :=
  if bool_decide (s ∈ [""; "NaT"; "nat"; "NAT"; "nan"; "NaN"; "NAN"]%string)
  then ParsedNaT
  else match s with
  | String y1 (String y2 (String y3 (String y4 (String "-"
      (String m1 (String m2 (String "-"
        (String d1 (String d2 EmptyString))))))))) =>
      match digit y1, digit y2, digit y3, digit y4,
            digit m1, digit m2, digit d1, digit d2 with
      | Some a, Some b, Some c, Some d, Some e, Some f, Some g, Some h =>
          let y := 1000 * a + 100 * b + 10 * c + d in
          let m := 10 * e + f in
          let dd := 10 * g + h in
          if bool_decide (1 ≤ m ≤ 12 ∧ 1 ≤ dd ≤ days_in_month y m)
          then Parsed (days_from_civil y m dd * ns_per_day)
          else Unparsable
      | _, _, _, _, _, _, _, _ => Unparsable
      end
  | _ => Unparsable
  end.

(** ** Two sorts for the examples *)

(** Sorting by insertion: an entry goes before the first entry whose count
    is not larger, so that entries of equal count stay in the order of the
    table, or ([strict]) before the first entry whose count is smaller, so
    that entries of equal count come out in the opposite order. *)
Fixpoint insert_desc (strict : bool) (x : cell * Z) (l : list (cell * Z))
  : list (cell * Z) :=
  match l with
  | [] => [x]
  | y :: rest =>
      if (if strict then bool_decide (y.2 < x.2) else bool_decide (y.2 ≤ x.2))
      then x :: y :: rest
      else y :: insert_desc strict x rest
  end.

Definition insertion_kind (strict : bool) : sort_kind.
Proof.
  assert (∀ x l, insert_desc strict x l ≡ₚ x :: l) as Hins.
  { intros x l. induction l as [|y l IH]; simpl; [done|].
    destruct (if strict then _ else _); [done|].
    rewrite IH. apply Permutation_swap. }
  assert (∀ l, foldr (insert_desc strict) [] l ≡ₚ l) as Hperm.
  { induction l as [|x l IH]; simpl; [done|]. by rewrite Hins, IH. }
  refine {| sort_values_desc := foldr (insert_desc strict) [] |};
    [exact Hperm|].
  assert (∀ x l, StronglySorted by_count_desc l →
                 StronglySorted by_count_desc (insert_desc strict x l))
    as Hsorted.
  { intros x l. induction l as [|y l IH]; simpl; intros Hl.
    - repeat constructor.
    - apply StronglySorted_cons in Hl as [Hy Hl].
      destruct (if strict then _ else _) eqn:Hcmp.
      + assert (y.2 ≤ x.2) as Hle.
        { destruct strict; apply bool_decide_eq_true_1 in Hcmp; lia. }
        apply StronglySorted_cons. split; [|by apply StronglySorted_cons].
        apply Forall_cons. split; [exact Hle|].
        eapply Forall_impl; [exact Hy|]. unfold by_count_desc. simpl.
        intros z Hz. lia.
      + assert (x.2 ≤ y.2) as Hle.
        { destruct strict; apply bool_decide_eq_false_1 in Hcmp; lia. }
        apply StronglySorted_cons. split; [|by apply IH].
        rewrite Hins. by apply Forall_cons. }
  induction l as [|x l IH]; simpl; [constructor | by apply Hsorted].
Defined.

(** The stable sort, and one that is not. *)
Definition stable_kind : sort_kind := insertion_kind false.
Definition reversing_kind : sort_kind := insertion_kind true.

(** ** Vocabulary of the statements *)

(** Position of the first occurrence of [v] in [l] (the length of [l]
    when there is none). *)
Fixpoint first_pos (v : cell) (l : list cell) : nat :=
  match l with
  | [] => 0
  | x :: rest => if decide (x = v) then 0 else S (first_pos v rest)
  end.

(** Number of occurrences of [v] in [l]. *)
Definition occurrences (v : cell) (l : list cell) : Z :=
  Z.of_nat (length (filter (fun x => x = v) l)).

(** Number of distinct values of a column that are not missing. *)
Definition distinct_non_null (s : Series) : Z :=
  Z.of_nat (length (remove_dups (filter notna (s_values s)))).

(** The order [most_common] is expected in: larger counts first, and
    among equal counts the value met first in the column [l]. *)
Definition before_in_ranking (l : list cell) (p q : cell * Z) : Prop :=
  q.2 < p.2 ∨ (q.2 = p.2 ∧ (first_pos p.1 l < first_pos q.1 l)%nat).

(** A float that is a percentage. *)
Definition is_percentage (x : float64) : Prop :=
  match x with
  | fin q => (0 <= q)%Q ∧ (q <= 100)%Q
  | _ => False
  end.

(** An outcome of [calculate_completeness] that is an exception or gives
    column [c] the score 0. *)
Definition zero_or_error (out : result (gmap string float64)) (c : string)
  : Prop :=
  (∃ e, out = Raise e)
  ∨ (∃ m q, out = Ok m ∧ m !! c = Some (fin q) ∧ (q == 0)%Q).

(** The cell [pd.to_datetime] puts in the place of [c], when it does not
    refuse it. *)
Definition parsed_cell (parse_datetime : string → parsed) (c : cell) : cell :=
  match c with
  | NA => NA
  | Str s =>
      match parse_datetime s with
      | Parsed t => Stamp t
      | ParsedAware t => StampTz t
      | _ => NA
      end
  | Int n => Stamp n
  | Stamp t => Stamp t
  | StampTz t => StampTz t
  end.

(** The timestamp without time zone a cell holds once parsed, if any. *)
Definition stamp_of (parse_datetime : string → parsed) (c : cell)
  : option Z :=
  match parsed_cell parse_datetime c with
  | Stamp t => Some t
  | _ => None
  end.

(** The timestamps a date column holds once parsed, in row order; rows
    without a date are left out. *)
Definition valid_stamps (parse_datetime : string → parsed) (s : Series)
  : list Z := omap (stamp_of parse_datetime) (s_values s).

(** A column none of whose dates has a time zone. *)
Definition naive_dates (parse_datetime : string → parsed) (s : Series)
  : Prop :=
  Forall (fun c => is_aware (parsed_cell parse_datetime c) = false)
    (s_values s).

(** A cell [pd.to_datetime] refuses. *)
Definition unparsable (parse_datetime : string → parsed) (c : cell) : Prop :=
  ∃ s, c = Str s ∧ parse_datetime s = Unparsable.

#[global] Instance parsed_eq_dec : EqDecision parsed.
Proof. solve_decision. Defined.

#[global] Instance unparsable_dec parse_datetime c :
  Decision (unparsable parse_datetime c).
Proof.
  refine (match c with
          | Str s => cast_if (decide (parse_datetime s = Unparsable))
          | _ => right _
          end); unfold unparsable;
    first [by eauto | by intros (? & [= <-] & ?) | by intros (? & [=] & ?)].
Defined.

(** The ages, in nanoseconds, of the dated rows at time [now]. *)
Definition ages (parse_datetime : string → parsed) (now : Z) (s : Series)
  : list Z := (fun t => now - t) <$> valid_stamps parse_datetime s.

(** The mean of the examples: exact, rounded towards zero.  It is what
    [float64] arithmetic gives on the values of the examples, whose sums
    are below 2^53 and are multiples of their number. *)
Definition exact_mean (l : list Z) : Z :=
  sum_Z l `quot` Z.of_nat (length l).

(** Two frames that differ at most in the column [col]: same index, same
    column labels, same content in every other column. *)
Definition unchanged_except (col : string) (f f' : DataFrame) : Prop :=
  nrows f' = nrows f
  ∧ df_columns f' = df_columns f
  ∧ ∀ c, c ≠ col → lookup_col (data f') c = lookup_col (data f) c.

(** ** Example data *)

(** The three records of the scenario of the specification. *)
Definition ex_df : DataFrame :=
  mkDataFrame 3
    [("status"%string,
       mkSeries dt_object [Str "Open"; Str "Closed"; Str "Open"]);
     ("created_date"%string,
       mkSeries dt_object [Str "2024-01-01"; Str "2024-01-02"; NA])].

(** [ex_df] with one more record. *)
Definition ex_df_grown : DataFrame :=
  mkDataFrame 4
    [("status"%string,
       mkSeries dt_object [Str "Open"; Str "Closed"; Str "Open"; Str "Closed"]);
     ("created_date"%string,
       mkSeries dt_object [Str "2024-01-01"; Str "2024-01-02"; NA; NA])].

(** Two records, dated the second and the third of January 2024. *)
Definition two_dates_df : DataFrame :=
  mkDataFrame 2
    [("created_date"%string,
       mkSeries dt_object [Str "2024-01-02"; Str "2024-01-03"])].

(** Two records without a date. *)
Definition missing_dates_df : DataFrame :=
  mkDataFrame 2 [("created_date"%string, mkSeries dt_object [NA; NA])].

(** One record, dated the second of January 2024. *)
Definition future_df : DataFrame :=
  mkDataFrame 1
    [("created_date"%string, mkSeries dt_object [Str "2024-01-02"])].

(** A frame whose second date is no date. *)
Definition bad_date_df : DataFrame :=
  mkDataFrame 2
    [("created_date"%string,
       mkSeries dt_object [Str "2024-01-01"; Str "unknown"])].

(** A frame without a single date that can be read. *)
Definition no_date_df : DataFrame :=
  mkDataFrame 1 [("created_date"%string, mkSeries dt_object [Str "unknown"])].

(** Noon of 2024-01-03 and of 2024-01-01, in nanoseconds. *)
Definition noon_jan_3 : Z := 19725 * ns_per_day + ns_per_day `div` 2.
Definition noon_jan_1 : Z := 19723 * ns_per_day + ns_per_day `div` 2.

(** Half of the records have no status, the others have distinct ones. *)
Definition half_null_df : DataFrame :=
  mkDataFrame 4
    [("status"%string, mkSeries dt_object [Str "Open"; NA; Str "Closed"; NA])].

(** Four records: one status twice, then two statuses once each. *)
Definition ties_df : DataFrame :=
  mkDataFrame 4
    [("status"%string,
       mkSeries dt_object [Str "b"; Str "b"; Str "a"; Str "c"])].

(** A file with a header line and no record. *)
Definition header_only_df : DataFrame :=
  mkDataFrame 0 [("status"%string, mkSeries dt_object [])].

(** ** The entry point *)

(** The exceptions [main] can end in: those of the methods, the
    [Exception] raised when the data cannot be fetched, and the
    [AttributeError] of calling [items] on [None]. *)
Inductive main_exn : Type :=
  | MethodError (e : exn)
  | FetchFailed
  | AttributeError.

(** [_fetch_nyc_311_data]: the answer of the server comes as its status
    code and the frame pandas makes of its body. *)
Definition fetch_nyc_311_data (status_code : Z) (body : DataFrame)
  : DataFrame + main_exn :=
  if decide (status_code = 200) then inl body else inr FetchFailed.

(** [__init__]: the frame read from [data_path] when one is given, the
    fetched one otherwise; no metrics yet. *)
Definition init (data_path : option DataFrame) (status_code : Z)
  (body : DataFrame) : Dashboard + main_exn :=
  match data_path with
  | Some frame => inl {| df := frame; metrics := no_metrics |}
  | None =>
      match fetch_nyc_311_data status_code body with
      | inl frame => inl {| df := frame; metrics := no_metrics |}
      | inr e => inr e
      end
  end.

(** The keys of a dictionary in the order of its [items()], when the keys
    were inserted in the order [keys]: each key stays where it was first
    inserted. *)
Fixpoint first_seen (keys : list string) : list string :=
  match keys with
  | [] => []
  | k :: rest => k :: filter (fun x => x ≠ k) (first_seen rest)
  end.

Definition dict_items {V} (keys : list string) (d : gmap string V)
  : list (string * V) :=
  omap (fun k => (fun v => (k, v)) <$> d !! k) (first_seen keys).

(** [x < y] on floats: false as soon as one of them is [nan]. *)
Definition f64_lt (x y : float64) : bool :=
  match x, y with
  | fin p, fin q => negb (Qle_bool q p)
  | fin _, inf positive => positive
  | inf positive, fin _ => negb positive
  | inf p, inf q => negb p && q
  | _, _ => false
  end.

(** [sorted(items, key=lambda x: x[1], reverse=True)]: the sort of Python
    is stable, also in reverse, so an item goes before the first item whose
    score is not larger.  (With [nan] among the scores the outcome of
    Python's sort depends on its algorithm; the properties below are about
    scores that are numbers.) *)
Fixpoint insert_by_score (x : string * float64) (l : list (string * float64))
  : list (string * float64) :=
  match l with
  | [] => [x]
  | y :: rest =>
      if f64_lt x.2 y.2 then y :: insert_by_score x rest
      else x :: y :: rest
  end.

Definition sorted_by_score (l : list (string * float64))
  : list (string * float64) := foldr insert_by_score [] l.

(** A line of the summary [main] prints; numbers are kept as they are,
    not as the text they are formatted to. *)
Inductive line : Type :=
  | Title (text : string)
  | DatasetSize (n : Z)
  | CompletenessLine (col : string) (score : float64)
  | TimelinessLine (metric : string) (value : day_count)
  | HighCardinality (col : string) (ratio : Q).

(** [timeliness.items()] *)
Definition timeliness_items (tm : timeliness_metrics)
  : list (string * day_count) :=
  [("average_age_days"%string, average_age_days tm);
   ("oldest_record_days"%string, oldest_record_days tm);
   ("newest_record_days"%string, newest_record_days tm)].

(** The lines of the last loop of [main]: the columns whose
    [unique_ratio] is above 80. *)
Definition high_cardinality_lines (items : list (string * consistency_entry))
  : list line :=
  omap (fun kv =>
          if negb (Qle_bool (unique_ratio kv.2) 80)
          then Some (HighCardinality kv.1 (unique_ratio kv.2))
          else None) items.

Section Main.

Variable parse_datetime : string → parsed.
Variable float_mean : list Z → Z.
Variable kind : sort_kind.

(** [main]: what it has printed and the exception it ends in, if any.
    The data come from the server ([status_code], [body]); [now] and
    [now'] are the clock as [calculate_timeliness] and [generate_report]
    would read it, [stamp] the time put on the report. *)
Definition main (status_code : Z) (body : DataFrame) (now now' stamp : Z)
  : list line * option main_exn :=
  match init None status_code body with
  | inr e => ([], Some e)
  | inl dashboard =>
  match calculate_completeness None dashboard with
  | (Raise e, _) => ([], Some (MethodError e))
  | (Ok completeness, dashboard1) =>
  match calculate_timeliness parse_datetime float_mean now "created_date"
          dashboard1
  with
  | (Raise e, _) => ([], Some (MethodError e))
  | (Ok timeliness, dashboard2) =>
  match calculate_consistency kind None dashboard2 with
  | (Raise e, _) => ([], Some (MethodError e))
  | (Ok consistency, dashboard3) =>
  match generate_report parse_datetime float_mean kind now' stamp dashboard3
  with
  | (Raise e, _) => ([], Some (MethodError e))
  | (Ok report, dashboard4) =>
      let top5 :=
        take 5 (sorted_by_score
                  (dict_items (df_columns (df dashboard)) completeness)) in
      let printed :=
        [Title "=== Data Quality Dashboard Summary ===";
         DatasetSize (len_df (df dashboard4));
         Title "Completeness Scores (Top 5):"]
        ++ ((fun kv => CompletenessLine kv.1 kv.2) <$> top5)
        ++ [Title "Timeliness Metrics:"] in
      match timeliness with
      | None => (printed, Some AttributeError)
      | Some tm =>
          (printed
           ++ ((fun kv => TimelinessLine kv.1 kv.2) <$> timeliness_items tm)
           ++ [Title "Consistency Issues:"]
           ++ high_cardinality_lines
                (dict_items (select_dtypes_object (df dashboard2))
                   consistency),
           None)
      end
  end end end end end.

End Main.

(** The order the completeness lines of [main] are expected in: both
    scores are numbers, and the second is not above the first. *)
Definition score_ge (p q : string * float64) : Prop :=
  match p.2, q.2 with
  | fin a, fin b => (b <= a)%Q
  | _, _ => False
  end.

(** ** More example data *)

(** A frame without a date column. *)
Definition undated_df : DataFrame :=
  mkDataFrame 2
    [("status"%string, mkSeries dt_object [Str "Open"; Str "Closed"])].

(** Six columns, four of them identifiers of the records. *)
Definition wide_df : DataFrame :=
  mkDataFrame 2
    [("unique_key"%string, mkSeries dt_object [Str "k1"; Str "k2"]);
     ("created_date"%string,
       mkSeries dt_object [Str "2024-01-01"; Str "2024-01-02"]);
     ("agency"%string, mkSeries dt_object [Str "NYPD"; Str "NYPD"]);
     ("status"%string, mkSeries dt_object [Str "Open"; NA]);
     ("borough"%string, mkSeries dt_object [NA; NA]);
     ("zip"%string, mkSeries dt_int64 [Int 10001; Int 10002])].

(** * Properties *)

(** ** Columns of a frame *)

Lemma lookup_col_Some cols c s :
  lookup_col cols c = Some s → (c, s) ∈ cols.
Proof.
  induction cols as [|[k s0] rest IH]; simpl; [done|].
  case_decide as Hk.
  - intros [= <-]. subst k. left.
  - intros H. right. auto.
Qed.

Lemma lookup_col_is_Some cols c :
  c ∈ cols.*1 ↔ is_Some (lookup_col cols c).
Proof.
  induction cols as [|[k s0] rest IH]; simpl.
  - split; [by intros ?%elem_of_nil | by intros [? ?]].
  - case_decide as Hk.
    + subst k. split; [eauto | intros _; left].
    + rewrite elem_of_cons, IH. split; [|by right].
      by intros [->|?].
Qed.

Lemma wf_df_column frame c s :
  wf_df frame → lookup_col (data frame) c = Some s →
  length (s_values s) = nrows frame.
Proof.
  intros [Hlen _] Hc%lookup_col_Some.
  rewrite Forall_forall in Hlen. apply (Hlen (c, s)), Hc.
Qed.

Lemma select_dtypes_object_columns frame c :
  c ∈ select_dtypes_object frame → c ∈ df_columns frame.
Proof.
  unfold select_dtypes_object, df_columns.
  intros [[k s] [-> [_ Hin]%list_elem_of_filter]]%list_elem_of_fmap.
  apply list_elem_of_fmap. by exists (k, s).
Qed.

(** ** The loop of [calculate_completeness] *)

Lemma completeness_loop_lookup frame cols acc m :
  completeness_loop frame cols acc = Ok m →
  ∀ c,
    (c ∈ cols → ∃ s, lookup_col (data frame) c = Some s
                     ∧ m !! c = Some (completeness_score frame s))
    ∧ (c ∉ cols → m !! c = acc !! c).
Proof.
  revert acc. induction cols as [|col rest IH]; simpl; intros acc Hm c.
  - injection Hm as <-. split; [by intros ?%elem_of_nil | done].
  - unfold df_getitem in Hm.
    destruct (lookup_col (data frame) col) as [s|] eqn:Hcol; simpl in Hm;
      [|done].
    destruct (IH _ Hm c) as [Hin Hout].
    destruct (decide (c ∈ rest)) as [Hr|Hr].
    + split; [auto | intros Hc; contradict Hc; by right].
    + split.
      * intros [->|?]%elem_of_cons; [|done].
        exists s. split; [done|]. rewrite (Hout Hr). apply lookup_insert_eq.
      * intros Hc. rewrite (Hout Hr). apply lookup_insert_ne.
        intros ->. apply Hc. left.
Qed.

Lemma completeness_loop_total frame cols acc :
  (∀ c, c ∈ cols → c ∈ df_columns frame) →
  ∃ m, completeness_loop frame cols acc = Ok m.
Proof.
  revert acc. induction cols as [|col rest IH]; simpl; intros acc Hcols.
  - eauto.
  - unfold df_getitem.
    destruct (proj1 (lookup_col_is_Some (data frame) col)) as [s ->].
    { apply Hcols. left. }
    simpl. apply IH. intros c Hc. apply Hcols. by right.
Qed.

Lemma or_default_elem_of {A} (xs : option (list A)) (d : list A)
  (P : A → Prop) :
  (∀ x, x ∈ d → P x) → (∀ x, x ∈ default [] xs → P x) →
  ∀ x, x ∈ or_default xs d → P x.
Proof. unfold or_default. destruct (py_not xs); auto. Qed.

Lemma calculate_completeness_Ok columns self :
  (∀ c, c ∈ default [] columns → c ∈ df_columns (df self)) →
  ∃ scores,
    (calculate_completeness columns self).1 = Ok scores
    ∧ ∀ c,
        (c ∈ or_default columns (df_columns (df self)) →
           ∃ s, lookup_col (data (df self)) c = Some s
                ∧ scores !! c = Some (completeness_score (df self) s))
        ∧ (c ∉ or_default columns (df_columns (df self)) →
           scores !! c = None).
Proof.
  intros Hcols. unfold calculate_completeness.
  destruct (completeness_loop_total (df self)
              (or_default columns (df_columns (df self))) ∅) as [m Hm].
  { by apply or_default_elem_of. }
  rewrite Hm. exists m. split; [done|]. intros c.
  destruct (completeness_loop_lookup _ _ _ _ Hm c) as [Hin Hout].
  split; [done|]. intros Hc. by rewrite (Hout Hc).
Qed.

(** ** Percentages *)

Lemma series_count_bounds s :
  0 ≤ series_count s ≤ Z.of_nat (length (s_values s)).
Proof.
  unfold series_count. pose proof (length_filter notna (s_values s)). lia.
Qed.

Lemma ratio_bounds (k n : Z) :
  0 ≤ k ≤ n → 0 < n →
  (0 <= inject_Z k / inject_Z n * inject_Z 100
   ∧ inject_Z k / inject_Z n * inject_Z 100 <= 100)%Q.
Proof.
  intros Hk Hn. destruct n as [|p|p]; try lia.
  unfold Qle, Qdiv, Qmult, Qinv, inject_Z; simpl. split; nia.
Qed.

Lemma ratio_full (n : Z) :
  0 < n → (inject_Z n / inject_Z n * inject_Z 100 == 100)%Q.
Proof.
  intros Hn. destruct n as [|p|p]; try lia.
  unfold Qeq, Qdiv, Qmult, Qinv, inject_Z; simpl. nia.
Qed.

Lemma ratio_zero (n : Z) :
  (inject_Z 0 / inject_Z n * inject_Z 100 == 0)%Q.
Proof. unfold Qeq, Qdiv, Qmult, inject_Z; simpl. lia. Qed.

(** ** Completeness of a frame without records *)

Lemma completeness_score_empty frame s :
  nrows frame = 0%nat → length (s_values s) = 0%nat →
  completeness_score frame s = nan.
Proof.
  intros Hn Hs. unfold completeness_score, series_count, len_df.
  apply nil_length_inv in Hs. rewrite Hs, Hn. reflexivity.
Qed.

(** C1 (amended).  On a dataset without records [calculate_completeness]
    has no guard and raises nothing: it returns a score for every column
    it was asked for (all the columns by default), and each of these
    scores is [nan], the outcome of the division 0/0 on numpy integers;
    neither 0 nor an error. *)
Theorem completeness_empty_dataset columns self :
  wf_df (df self) → nrows (df self) = 0%nat →
  (∀ c, c ∈ default [] columns → c ∈ df_columns (df self)) →
  ∃ scores,
    (calculate_completeness columns self).1 = Ok scores
    ∧ ∀ c,
        (c ∈ or_default columns (df_columns (df self)) →
           scores !! c = Some nan)
        ∧ (c ∉ or_default columns (df_columns (df self)) →
           scores !! c = None).
Proof.
  intros Hwf Hn Hcols.
  destruct (calculate_completeness_Ok columns self Hcols) as (m & Hm & Hsc).
  exists m. split; [done|]. intros c. destruct (Hsc c) as [Hin Hout].
  split; [|done]. intros Hc. destruct (Hin Hc) as (s & Hs & ->).
  f_equal. apply completeness_score_empty; [done|].
  rewrite (wf_df_column _ _ _ Hwf Hs). done.
Qed.

Lemma header_only_df_wf : wf_df header_only_df.
Proof.
  split.
  - repeat constructor.
  - apply NoDup_singleton.
Qed.

Lemma completeness_empty_dataset_witness :
  ∃ scores,
    (calculate_completeness (Some ["status"%string])
       (mkDashboard header_only_df no_metrics)).1 = Ok scores
    ∧ ∀ c,
        (c ∈ ["status"%string] → scores !! c = Some nan)
        ∧ (c ∉ ["status"%string] → scores !! c = None).
Proof.
  apply (completeness_empty_dataset (Some ["status"%string])
           (mkDashboard header_only_df no_metrics)).
  - apply header_only_df_wf.
  - reflexivity.
  - intros c Hc. exact Hc.
Defined.

(** C1, as stated, fails: asked for the column of a header-only file, the
    method neither raises nor scores the column 0. *)
Lemma completeness_header_only_undefined :
  ¬ zero_or_error
      (calculate_completeness (Some ["status"%string])
         (mkDashboard header_only_df no_metrics)).1 "status".
Proof.
  intros [[e He] | (m & q & Hm & Hq & _)].
  - vm_compute in He. discriminate He.
  - vm_compute in Hm. injection Hm as <-. vm_compute in Hq. discriminate Hq.
Qed.

(** ** Counting the values of a column *)

Lemma first_pos_app_l v l k :
  v ∈ l → first_pos v (l ++ k) = first_pos v l.
Proof.
  induction l as [|x l IH]; simpl.
  - by intros ?%elem_of_nil.
  - intros Hv. case_decide; [done|]. f_equal. apply IH.
    apply elem_of_cons in Hv as [->|Hv]; done.
Qed.

Lemma first_pos_lt v l : v ∈ l → (first_pos v l < length l)%nat.
Proof.
  induction l as [|x l IH]; simpl.
  - by intros ?%elem_of_nil.
  - intros Hv. case_decide; [lia|].
    apply elem_of_cons in Hv as [->|Hv]; [done|]. apply IH in Hv. lia.
Qed.

Lemma first_pos_snoc_new v l :
  v ∉ l → first_pos v (l ++ [v]) = length l.
Proof.
  induction l as [|x l IH]; simpl; intros Hv.
  - by case_decide.
  - rewrite not_elem_of_cons in Hv. destruct Hv as [Hx Hv].
    case_decide; [by subst|]. f_equal. by apply IH.
Qed.

Lemma occurrences_snoc k l v :
  occurrences k (l ++ [v])
  = occurrences k l + (if decide (v = k) then 1 else 0).
Proof.
  unfold occurrences. rewrite filter_app, length_app.
  rewrite filter_cons, filter_nil. case_decide; simpl; lia.
Qed.

Lemma occurrences_not_elem_of k l : k ∉ l → occurrences k l = 0.
Proof.
  intros Hk. unfold occurrences.
  destruct (filter (λ x, x = k) l) as [|y l'] eqn:Hf; [done|].
  assert (y ∈ filter (λ x, x = k) l) as Hy by (rewrite Hf; left).
  apply list_elem_of_filter in Hy as [-> Hy]. done.
Qed.

Lemma count_add_keys v tbl :
  (count_add v tbl).*1
  = if decide (v ∈ tbl.*1) then tbl.*1 else tbl.*1 ++ [v].
Proof.
  induction tbl as [|[k c] rest IH].
  - rewrite decide_False by apply not_elem_of_nil. done.
  - cbn [count_add]. destruct (decide (k = v)) as [->|Hk]; csimpl.
    + rewrite decide_True; [done | left].
    + rewrite IH. destruct (decide (v ∈ rest.*1)) as [Hv|Hv].
      * rewrite decide_True; [done | by right].
      * rewrite decide_False; [done|].
        rewrite not_elem_of_cons. auto.
Qed.

Lemma elem_of_count_add k c v tbl :
  NoDup tbl.*1 → (k, c) ∈ count_add v tbl →
  (k ≠ v ∧ (k, c) ∈ tbl)
  ∨ (k = v ∧ ((v, c - 1) ∈ tbl ∨ (c = 1 ∧ v ∉ tbl.*1))).
Proof.
  induction tbl as [|[k0 c0] rest IH]; simpl; intros Hnd Hin.
  - apply list_elem_of_singleton in Hin as [= -> ->].
    right. split; [done|]. right. split; [done | apply not_elem_of_nil].
  - apply NoDup_cons in Hnd as [Hk0 Hnd].
    destruct (decide (k0 = v)) as [->|Hne].
    + apply elem_of_cons in Hin as [[= -> ->]|Hin].
      * right. split; [done|]. left. replace (c0 + 1 - 1) with c0 by lia. left.
      * left. split; [|by right]. intros ->. apply Hk0.
        apply list_elem_of_fmap. by exists (v, c).
    + apply elem_of_cons in Hin as [[= -> ->]|Hin].
      * left. split; [done | left].
      * destruct (IH Hnd Hin) as [[? ?]|[-> [?|[-> Hv]]]].
        -- left. split; [done | by right].
        -- right. split; [done|]. left. by right.
        -- right. split; [done|]. right. split; [done|].
           rewrite not_elem_of_cons. auto.
Qed.

Lemma StronglySorted_impl_elem_of {A} (R R' : relation A) l :
  (∀ x y, x ∈ l → y ∈ l → R x y → R' x y) →
  StronglySorted R l → StronglySorted R' l.
Proof.
  induction l as [|x l IH]; intros HR Hs; [constructor|].
  apply StronglySorted_cons in Hs as [Hx Hs].
  apply StronglySorted_cons. split.
  - rewrite Forall_forall in *. intros y Hy.
    apply HR; [left | by right | auto].
  - apply IH; [|done]. intros a b Ha Hb. apply HR; by right.
Qed.

Lemma StronglySorted_irrefl_NoDup {A} (R : relation A) l :
  (∀ x, ¬ R x x) → StronglySorted R l → NoDup l.
Proof.
  intros Hirr. induction 1 as [|x l Hs IH Hx]; constructor; [|done].
  intros Hin. rewrite Forall_forall in Hx. by apply (Hirr x), Hx.
Qed.

(** The table of [value_counts] before it is sorted: its keys are the
    values of the column, in the order they are first met, each with the
    number of its occurrences. *)
Lemma count_table_spec l :
  (∀ k, k ∈ (count_table l).*1 ↔ k ∈ l)
  ∧ StronglySorted (λ a b, (first_pos a l < first_pos b l)%nat)
      (count_table l).*1
  ∧ (∀ k c, (k, c) ∈ count_table l → c = occurrences k l).
Proof.
  induction l as [|v l (Hkeys & Hsort & Hcnt)] using rev_ind.
  - split; [done|]. split; [constructor|]. by intros k c ?%elem_of_nil.
  - unfold count_table in *. rewrite foldl_app. simpl.
    set (tbl := foldl (λ tbl v, count_add v tbl) [] l) in *.
    assert (NoDup tbl.*1) as Hnd.
    { eapply StronglySorted_irrefl_NoDup; [|exact Hsort]. intros x.
      apply Nat.lt_irrefl. }
    split; [|split].
    + intros k. rewrite count_add_keys, elem_of_app, list_elem_of_singleton.
      case_decide as Hv; rewrite ?elem_of_app, ?list_elem_of_singleton, Hkeys.
      * split; [auto|]. intros [? | ->]; [done | by apply Hkeys].
      * done.
    + rewrite count_add_keys. case_decide as Hv.
      * eapply StronglySorted_impl_elem_of; [|exact Hsort].
        intros a b Ha%Hkeys Hb%Hkeys. by rewrite !first_pos_app_l.
      * apply StronglySorted_app_2.
        -- intros a b Ha%Hkeys ->%list_elem_of_singleton.
           rewrite first_pos_app_l by done.
           rewrite first_pos_snoc_new by (by rewrite <-Hkeys).
           by apply first_pos_lt.
        -- eapply StronglySorted_impl_elem_of; [|exact Hsort].
           intros a b Ha%Hkeys Hb%Hkeys. by rewrite !first_pos_app_l.
        -- repeat constructor.
    + intros k c Hin. rewrite occurrences_snoc.
      destruct (elem_of_count_add _ _ _ _ Hnd Hin)
        as [[Hne Hk]|[-> [Hk|[-> Hv]]]].
      * rewrite decide_False by done. rewrite (Hcnt _ _ Hk). lia.
      * rewrite decide_True by done. apply Hcnt in Hk. lia.
      * rewrite decide_True by done. rewrite Hkeys in Hv.
        rewrite (occurrences_not_elem_of _ _ Hv). lia.
Qed.

Lemma first_pos_filter_notna a b l :
  notna a → notna b →
  (first_pos a (filter notna l) < first_pos b (filter notna l))%nat →
  (first_pos a l < first_pos b l)%nat.
Proof.
  intros Ha Hb. induction l as [|x l IH]; [done|].
  rewrite filter_cons. destruct (decide (notna x)) as [Hx|Hx]; simpl.
  - repeat case_decide; subst; lia.
  - assert (x = NA) as ->.
    { destruct x; [done|..]; exfalso; apply Hx; intros [=]. }
    rewrite !decide_False by (intros <-; by (apply Ha || apply Hb)).
    lia.
Qed.

Lemma occurrences_filter_notna k l :
  notna k → occurrences k (filter notna l) = occurrences k l.
Proof.
  intros Hk. unfold occurrences. f_equal. f_equal.
  rewrite list_filter_filter. apply list_filter_iff.
  intros x. split; [by intros [? _] | intros ->; done].
Qed.

(** ** Sorting the counts *)

(** What [value_counts] returns for a column. *)
Lemma value_counts_spec kind s :
  (∀ k, k ∈ (value_counts kind s).*1 ↔ k ∈ s_values s ∧ notna k)
  ∧ NoDup (value_counts kind s).*1
  ∧ (∀ k c, (k, c) ∈ value_counts kind s → c = occurrences k (s_values s))
  ∧ StronglySorted by_count_desc (value_counts kind s).
Proof.
  unfold value_counts.
  set (vals := filter notna (s_values s)).
  destruct (count_table_spec vals) as (Hkeys & Hsort & Hcnt).
  pose proof (sort_values_desc_perm kind (count_table vals)) as Hperm.
  assert (∀ k, k ∈ (sort_values_desc kind (count_table vals)).*1
               ↔ k ∈ s_values s ∧ notna k) as Hk.
  { intros k. rewrite Hperm, Hkeys. unfold vals.
    rewrite list_elem_of_filter. tauto. }
  split; [done|]. split; [|split].
  - rewrite Hperm. eapply StronglySorted_irrefl_NoDup; [|exact Hsort].
    intros x. apply Nat.lt_irrefl.
  - intros k c Hin. assert (notna k) as Hna.
    { apply (Hk k), list_elem_of_fmap. by exists (k, c). }
    rewrite Hperm in Hin. rewrite (Hcnt _ _ Hin).
    by apply occurrences_filter_notna.
  - apply sort_values_desc_sorted.
Qed.

Lemma value_counts_length kind s :
  Z.of_nat (length (value_counts kind s)) = distinct_non_null s.
Proof.
  unfold distinct_non_null. f_equal.
  destruct (value_counts_spec kind s) as (Hk & Hnd & _).
  rewrite <-(length_fmap fst). apply Permutation_length.
  apply NoDup_Permutation; [done | apply NoDup_remove_dups|].
  intros k. rewrite Hk, elem_of_remove_dups, list_elem_of_filter. tauto.
Qed.

(** ** The loop of [calculate_consistency] *)

Lemma consistency_of_nonempty kind frame s :
  (0 < nrows frame)%nat →
  consistency_of kind frame s
  = Ok {| unique_values := Z.of_nat (length (value_counts kind s));
          unique_ratio :=
            (inject_Z (Z.of_nat (length (value_counts kind s)))
             / inject_Z (len_df frame) * 100)%Q;
          most_common := take 3 (value_counts kind s) |}.
Proof.
  intros Hn. unfold consistency_of, py_truediv, len_df.
  rewrite decide_False by lia. reflexivity.
Qed.

Lemma consistency_of_empty kind frame s :
  nrows frame = 0%nat → consistency_of kind frame s = Raise ZeroDivisionError.
Proof.
  intros Hn. unfold consistency_of, py_truediv, len_df. by rewrite Hn.
Qed.

Lemma consistency_loop_lookup kind frame cols acc m :
  consistency_loop kind frame cols acc = Ok m →
  ∀ c,
    (c ∈ cols → ∃ s e, lookup_col (data frame) c = Some s
                       ∧ consistency_of kind frame s = Ok e
                       ∧ m !! c = Some e)
    ∧ (c ∉ cols → m !! c = acc !! c).
Proof.
  revert acc. induction cols as [|col rest IH]; simpl; intros acc Hm c.
  - injection Hm as <-. split; [by intros ?%elem_of_nil | done].
  - unfold df_getitem in Hm.
    destruct (lookup_col (data frame) col) as [s|] eqn:Hcol; simpl in Hm;
      [|done].
    destruct (consistency_of kind frame s) as [e|] eqn:He; simpl in Hm; [|done].
    destruct (IH _ Hm c) as [Hin Hout].
    destruct (decide (c ∈ rest)) as [Hr|Hr].
    + split; [auto | intros Hc; contradict Hc; by right].
    + split.
      * intros [->|?]%elem_of_cons; [|done].
        exists s, e. split; [done|]. split; [done|].
        rewrite (Hout Hr). apply lookup_insert_eq.
      * intros Hc. rewrite (Hout Hr). apply lookup_insert_ne.
        intros ->. apply Hc. left.
Qed.

Lemma consistency_loop_total kind frame cols acc :
  (0 < nrows frame)%nat →
  (∀ c, c ∈ cols → c ∈ df_columns frame) →
  ∃ m, consistency_loop kind frame cols acc = Ok m.
Proof.
  intros Hn. revert acc.
  induction cols as [|col rest IH]; simpl; intros acc Hcols.
  - eauto.
  - unfold df_getitem.
    destruct (proj1 (lookup_col_is_Some (data frame) col)) as [s ->].
    { apply Hcols. left. }
    simpl. rewrite consistency_of_nonempty by done. simpl.
    apply IH. intros c Hc. apply Hcols. by right.
Qed.

Lemma consistency_loop_empty kind frame col rest acc :
  nrows frame = 0%nat → col ∈ df_columns frame →
  consistency_loop kind frame (col :: rest) acc = Raise ZeroDivisionError.
Proof.
  intros Hn Hcol. simpl. unfold df_getitem.
  destruct (proj1 (lookup_col_is_Some (data frame) col) Hcol) as [s ->].
  simpl. by rewrite consistency_of_empty.
Qed.

Lemma calculate_consistency_Ok kind categorical_columns self :
  (0 < nrows (df self))%nat →
  (∀ c, c ∈ default [] categorical_columns → c ∈ df_columns (df self)) →
  ∃ m,
    (calculate_consistency kind categorical_columns self).1 = Ok m
    ∧ ∀ c,
        (c ∈ or_default categorical_columns (select_dtypes_object (df self))
         → ∃ s e, lookup_col (data (df self)) c = Some s
             ∧ m !! c = Some e
             ∧ unique_values e = Z.of_nat (length (value_counts kind s))
             ∧ unique_ratio e
               = (inject_Z (Z.of_nat (length (value_counts kind s)))
                  / inject_Z (len_df (df self)) * 100)%Q
             ∧ most_common e = take 3 (value_counts kind s))
        ∧ (c ∉ or_default categorical_columns
                 (select_dtypes_object (df self))
           → m !! c = None).
Proof.
  intros Hn Hcols. unfold calculate_consistency.
  destruct (consistency_loop_total kind (df self)
              (or_default categorical_columns (select_dtypes_object (df self)))
              ∅ Hn) as [m Hm].
  { apply or_default_elem_of; [|done].
    apply select_dtypes_object_columns. }
  rewrite Hm. exists m. split; [done|]. intros c.
  destruct (consistency_loop_lookup kind _ _ _ _ Hm c) as [Hin Hout].
  split; [|intros Hc; by rewrite (Hout Hc)].
  intros Hc. destruct (Hin Hc) as (s & e & Hs & He & Hme).
  rewrite consistency_of_nonempty in He by done. injection He as <-.
  exists s. eexists. split; [done|]. split; [exact Hme|]. done.
Qed.

Lemma calculate_consistency_empty kind categorical_columns self :
  nrows (df self) = 0%nat →
  (∀ c, c ∈ default [] categorical_columns → c ∈ df_columns (df self)) →
  or_default categorical_columns (select_dtypes_object (df self)) ≠ [] →
  calculate_consistency kind categorical_columns self
  = (Raise ZeroDivisionError, self).
Proof.
  intros Hn Hcols Hne. unfold calculate_consistency.
  destruct (or_default categorical_columns (select_dtypes_object (df self)))
    as [|col rest] eqn:Heq; [done|].
  rewrite consistency_loop_empty; [done..|].
  apply (or_default_elem_of categorical_columns
           (select_dtypes_object (df self))
           (λ c, c ∈ df_columns (df self)));
    [apply select_dtypes_object_columns | done |].
  rewrite Heq. left.
Qed.

Lemma consistency_of_Ok kind frame s e :
  consistency_of kind frame s = Ok e →
  unique_values e = Z.of_nat (length (value_counts kind s))
  ∧ most_common e = take 3 (value_counts kind s).
Proof.
  unfold consistency_of.
  destruct (py_truediv _ _) as [ratio|]; simpl; [|done].
  by intros [= <-].
Qed.

Lemma calculate_consistency_entry kind categorical_columns self m c e :
  (calculate_consistency kind categorical_columns self).1 = Ok m →
  m !! c = Some e →
  ∃ s, lookup_col (data (df self)) c = Some s
       ∧ consistency_of kind (df self) s = Ok e.
Proof.
  unfold calculate_consistency.
  destruct (consistency_loop kind _ _ _) as [m'|] eqn:Hloop; simpl; [|done].
  intros [= ->] He.
  destruct (consistency_loop_lookup kind _ _ _ _ Hloop c) as [Hin Hout].
  destruct (decide (c ∈ or_default categorical_columns
                          (select_dtypes_object (df self)))) as [Hc|Hc].
  - destruct (Hin Hc) as (s & e' & Hs & He' & Hm). exists s.
    split; [done|]. rewrite Hm in He. by injection He as ->.
  - rewrite (Hout Hc) in He. done.
Qed.

(** ** The most common values *)

(** C5 (amended).  Whenever [calculate_consistency] returns an entry for
    a column, its [most_common] holds at most three (value, count) pairs:
    the first three entries of a ranking of all the values of the column
    that are not missing, each once and with its number of occurrences, in
    descending order of count.  Nothing more is known of the order of
    values of equal count: it is the one the sort happens to leave.  On a
    dataset with records an entry is returned for every column worked
    on. *)
Theorem most_common_ranking kind categorical_columns self :
  (∀ m c e,
     (calculate_consistency kind categorical_columns self).1 = Ok m →
     m !! c = Some e →
     ∃ s rest,
       lookup_col (data (df self)) c = Some s
       ∧ (length (most_common e) ≤ 3)%nat
       ∧ StronglySorted by_count_desc (most_common e ++ rest)
       ∧ (rest ≠ [] → length (most_common e) = 3%nat)
       ∧ NoDup (most_common e ++ rest).*1
       ∧ (∀ v, v ∈ (most_common e ++ rest).*1 ↔ v ∈ s_values s ∧ notna v)
       ∧ (∀ v n, (v, n) ∈ most_common e ++ rest →
                 n = occurrences v (s_values s)))
  ∧ ((0 < nrows (df self))%nat →
     (∀ c, c ∈ default [] categorical_columns → c ∈ df_columns (df self)) →
     ∃ m,
       (calculate_consistency kind categorical_columns self).1 = Ok m
       ∧ ∀ c,
           c ∈ or_default categorical_columns
                 (select_dtypes_object (df self)) →
           is_Some (m !! c)).
Proof.
  split.
  - intros m c e Hm He.
    destruct (calculate_consistency_entry kind _ _ _ _ _ Hm He)
      as (s & Hs & Hof).
    apply consistency_of_Ok in Hof as [_ Hmc].
    destruct (value_counts_spec kind s) as (Hk & Hnd & Hcnt & Hsort).
    exists s, (drop 3 (value_counts kind s)).
    rewrite Hmc, take_drop, length_take.
    split; [done|]. split; [lia|]. split; [done|].
    split; [|done].
    intros Hrest.
    destruct (decide (length (value_counts kind s) ≤ 3)%nat) as [Hle|];
      [|lia].
    by rewrite drop_ge in Hrest.
  - intros Hn Hcols.
    destruct (calculate_consistency_Ok kind _ _ Hn Hcols)
      as (m & Hm & Hent).
    exists m. split; [done|]. intros c Hc.
    destruct (proj1 (Hent c) Hc) as (s & e & _ & He & _). by exists e.
Qed.

Lemma most_common_ranking_witness :
  let e := {| unique_values := 3;
              unique_ratio := 300 # 4;
              most_common := [(Str "b", 2); (Str "c", 1); (Str "a", 1)] |} in
  (∃ s rest,
     lookup_col (data ties_df) "status" = Some s
     ∧ (length (most_common e) ≤ 3)%nat
     ∧ StronglySorted by_count_desc (most_common e ++ rest)
     ∧ (rest ≠ [] → length (most_common e) = 3%nat)
     ∧ NoDup (most_common e ++ rest).*1
     ∧ (∀ v, v ∈ (most_common e ++ rest).*1 ↔ v ∈ s_values s ∧ notna v)
     ∧ (∀ v n, (v, n) ∈ most_common e ++ rest →
               n = occurrences v (s_values s)))
  ∧ ∃ m,
      (calculate_consistency reversing_kind (Some ["status"%string])
         (mkDashboard ties_df no_metrics)).1 = Ok m
      ∧ ∀ c, c ∈ ["status"%string] → is_Some (m !! c).
Proof.
  intros e.
  destruct (most_common_ranking reversing_kind (Some ["status"%string])
              (mkDashboard ties_df no_metrics)) as [Hentry Hall].
  split.
  - apply (Hentry {[ "status"%string := e ]} "status"%string e);
      reflexivity.
  - apply Hall.
    + simpl. lia.
    + intros c Hc. apply list_elem_of_singleton in Hc as ->. left.
Defined.

(** C5, as stated, fails: under a sort that is not stable the two
    statuses met once come out with the one met last first, so that
    [most_common] is in descending order of count and not, among equal
    counts, in the order in which the values are first met. *)
Lemma most_common_ties_not_by_first_met :
  let col := [Str "b"; Str "b"; Str "a"; Str "c"] in
  ∃ m e,
    (calculate_consistency reversing_kind None
       (mkDashboard ties_df no_metrics)).1 = Ok m
    ∧ m !! "status"%string = Some e
    ∧ most_common e = [(Str "b", 2); (Str "c", 1); (Str "a", 1)]
    ∧ (first_pos (Str "a") col < first_pos (Str "c") col)%nat
    ∧ ¬ StronglySorted (before_in_ranking col) (most_common e).
Proof.
  intros col.
  exists {[ "status"%string :=
              {| unique_values := 3;
                 unique_ratio := 300 # 4;
                 most_common :=
                   [(Str "b", 2); (Str "c", 1); (Str "a", 1)] |} ]}.
  eexists. split; [reflexivity|]. split; [reflexivity|].
  split; [reflexivity|]. split; [simpl; lia|].
  simpl. intros Hs.
  apply StronglySorted_cons in Hs as [_ Hs].
  apply StronglySorted_cons in Hs as [Hc _].
  apply Forall_cons in Hc as [[Hlt|[_ Hlt]] _]; simpl in Hlt; lia.
Qed.

(** ** The ratio of distinct values *)

Lemma length_filter_Forall {A} (P : A → Prop) `{∀ x, Decision (P x)} l :
  Forall P l → length (filter P l) = length l.
Proof.
  induction 1 as [|x l Hx _ IH]; [done|].
  rewrite filter_cons_True by done. simpl. by rewrite IH.
Qed.

Lemma filter_Forall_not {A} (P : A → Prop) `{∀ x, Decision (P x)} l :
  Forall (λ x, ¬ P x) l → filter P l = [].
Proof.
  induction 1 as [|x l Hx _ IH]; [done|]. by rewrite filter_cons_False.
Qed.

Lemma length_isna_notna l :
  (length (filter isna l) + length (filter notna l))%nat = length l.
Proof.
  rewrite <-length_app.
  apply Permutation_length. rewrite <-(filter_app_complement isna l) at 3.
  f_equiv. by rewrite (list_filter_iff notna (λ x, ¬ isna x)).
Qed.

Lemma distinct_non_null_NoDup s :
  NoDup (filter notna (s_values s)) →
  distinct_non_null s = series_count s.
Proof.
  intros Hnd. unfold distinct_non_null, series_count. f_equal.
  apply Permutation_length, NoDup_Permutation;
    [apply NoDup_remove_dups | done|].
  intros x. apply elem_of_remove_dups.
Qed.

Lemma distinct_non_null_bounds s :
  0 ≤ distinct_non_null s ≤ Z.of_nat (length (s_values s)).
Proof.
  unfold distinct_non_null. split; [lia|]. apply inj_le.
  etrans; [|apply (length_filter notna)].
  apply submseteq_length, NoDup_submseteq; [apply NoDup_remove_dups|].
  intros x. by rewrite elem_of_remove_dups.
Qed.

Lemma ratio_half (n : Z) :
  0 < n → (inject_Z n / inject_Z (2 * n) * 100 == 50)%Q.
Proof.
  intros Hn. destruct n as [|p|p]; try lia.
  unfold Qeq, Qdiv, Qmult, Qinv, inject_Z; simpl. lia.
Qed.

(** C8.  [unique_ratio] is the number of distinct values that are not
    missing over the number of records, times 100; on a dataset without
    records the division by that number raises [ZeroDivisionError].  In
    particular a column in which half of the records are missing and the
    others are pairwise distinct has the ratio 50, not the 100 that the
    number of values present would give as denominator. *)
Theorem unique_ratio_over_total_count kind categorical_columns self :
  wf_df (df self) →
  (∀ c, c ∈ default [] categorical_columns → c ∈ df_columns (df self)) →
  (nrows (df self) = 0%nat →
   or_default categorical_columns (select_dtypes_object (df self)) ≠ [] →
   (calculate_consistency kind categorical_columns self).1
   = Raise ZeroDivisionError)
  ∧ ((0 < nrows (df self))%nat →
     ∃ m,
       (calculate_consistency kind categorical_columns self).1 = Ok m
       ∧ ∀ c,
           c ∈ or_default categorical_columns
                 (select_dtypes_object (df self)) →
           ∃ s e,
             lookup_col (data (df self)) c = Some s
             ∧ m !! c = Some e
             ∧ unique_ratio e
               = (inject_Z (distinct_non_null s)
                  / inject_Z (len_df (df self)) * 100)%Q
             ∧ (length (filter isna (s_values s))
                = length (filter notna (s_values s)) →
                NoDup (filter notna (s_values s)) →
                (unique_ratio e == 50)%Q
                ∧ (inject_Z (distinct_non_null s)
                   / inject_Z (series_count s) * 100 == 100)%Q)).
Proof.
  intros Hwf Hcols. split.
  - intros Hn Hne. by rewrite calculate_consistency_empty.
  - intros Hn.
    destruct (calculate_consistency_Ok kind _ _ Hn Hcols) as (m & Hm & Hent).
    exists m. split; [done|]. intros c Hc.
    destruct (proj1 (Hent c) Hc) as (s & e & Hs & He & _ & Hr & _).
    exists s, e. rewrite value_counts_length in Hr.
    split; [done|]. split; [done|]. split; [done|]. intros Hhalf Hnd.
    split.
    + rewrite Hr. unfold len_df.
      rewrite (distinct_non_null_NoDup _ Hnd).
      pose proof (wf_df_column _ _ _ Hwf Hs) as Hlen.
      pose proof (length_isna_notna (s_values s)) as Hsum.
      unfold series_count.
      replace (Z.of_nat (nrows (df self)))
        with (2 * Z.of_nat (length (filter notna (s_values s)))) by lia.
      apply ratio_half. lia.
    + rewrite (distinct_non_null_NoDup _ Hnd).
      pose proof (wf_df_column _ _ _ Hwf Hs) as Hlen.
      pose proof (length_isna_notna (s_values s)) as Hsum.
      apply (ratio_full (series_count s)). unfold series_count. lia.
Qed.

Lemma ex_df_wf : wf_df ex_df.
Proof.
  split.
  - repeat constructor.
  - apply (bool_decide_unpack _). reflexivity.
Qed.

Lemma half_null_df_wf : wf_df half_null_df.
Proof.
  split.
  - repeat constructor.
  - apply NoDup_singleton.
Qed.

Lemma unique_ratio_over_total_count_witness :
  (nrows half_null_df = 0%nat →
   or_default None (select_dtypes_object half_null_df) ≠ [] →
   (calculate_consistency stable_kind None (mkDashboard half_null_df
       no_metrics)).1
   = Raise ZeroDivisionError)
  ∧ ((0 < nrows half_null_df)%nat →
     ∃ m,
       (calculate_consistency stable_kind None (mkDashboard half_null_df
           no_metrics)).1
       = Ok m
       ∧ ∀ c,
           c ∈ or_default None (select_dtypes_object half_null_df) →
           ∃ s e,
             lookup_col (data half_null_df) c = Some s
             ∧ m !! c = Some e
             ∧ unique_ratio e
               = (inject_Z (distinct_non_null s)
                  / inject_Z (len_df half_null_df) * 100)%Q
             ∧ (length (filter isna (s_values s))
                = length (filter notna (s_values s)) →
                NoDup (filter notna (s_values s)) →
                (unique_ratio e == 50)%Q
                ∧ (inject_Z (distinct_non_null s)
                   / inject_Z (series_count s) * 100 == 100)%Q)).
Proof.
  apply (unique_ratio_over_total_count stable_kind None
           (mkDashboard half_null_df no_metrics)).
  - apply half_null_df_wf.
  - intros c Hc. simpl in Hc. by apply elem_of_nil in Hc.
Defined.

(** ** Percentages *)

Lemma completeness_score_nonempty frame s :
  (0 < nrows frame)%nat →
  completeness_score frame s
  = fin (inject_Z (series_count s) / inject_Z (len_df frame)
         * inject_Z 100)%Q.
Proof.
  intros Hn. unfold completeness_score, np_true_divide, len_df.
  rewrite decide_False by lia. reflexivity.
Qed.

(** C9 (amended).  On a dataset with at least one record every
    completeness score and every [unique_ratio] lies between 0 and 100; the
    completeness of a column is 100 when no record misses it and 0 when
    every record does. *)
Theorem percentages_in_range kind columns categorical_columns self :
  wf_df (df self) → (0 < nrows (df self))%nat →
  (∀ c, c ∈ default [] columns → c ∈ df_columns (df self)) →
  (∀ c, c ∈ default [] categorical_columns → c ∈ df_columns (df self)) →
  (∃ scores,
     (calculate_completeness columns self).1 = Ok scores
     ∧ (∀ c x, scores !! c = Some x → is_percentage x)
     ∧ ∀ c, c ∈ or_default columns (df_columns (df self)) →
         ∃ s q,
           lookup_col (data (df self)) c = Some s
           ∧ scores !! c = Some (fin q)
           ∧ (Forall notna (s_values s) → (q == 100)%Q)
           ∧ (Forall isna (s_values s) → (q == 0)%Q))
  ∧ (∃ m,
       (calculate_consistency kind categorical_columns self).1 = Ok m
       ∧ ∀ c e, m !! c = Some e →
           (0 <= unique_ratio e)%Q ∧ (unique_ratio e <= 100)%Q).
Proof.
  intros Hwf Hn Hcols Hcat. split.
  - destruct (calculate_completeness_Ok columns self Hcols)
      as (scores & Hsc & Hent).
    exists scores. split; [done|]. split.
    + intros c x Hx.
      destruct (decide (c ∈ or_default columns (df_columns (df self))))
        as [Hc|Hc].
      * destruct (proj1 (Hent c) Hc) as (s & Hs & Hcs).
        rewrite Hcs in Hx. injection Hx as <-.
        rewrite completeness_score_nonempty by done. simpl.
        apply ratio_bounds; [|unfold len_df; lia].
        pose proof (series_count_bounds s) as Hb.
        rewrite (wf_df_column _ _ _ Hwf Hs) in Hb. done.
      * rewrite (proj2 (Hent c) Hc) in Hx. done.
    + intros c Hc. destruct (proj1 (Hent c) Hc) as (s & Hs & Hcs).
      rewrite completeness_score_nonempty in Hcs by done.
      exists s. eexists. split; [done|]. split; [exact Hcs|].
      pose proof (wf_df_column _ _ _ Hwf Hs) as Hlen. split.
      * intros Hall. unfold series_count, len_df.
        rewrite length_filter_Forall, Hlen by done.
        apply ratio_full. lia.
      * intros Hall. unfold series_count.
        rewrite filter_Forall_not; [apply ratio_zero|].
        eapply Forall_impl; [exact Hall|]. intros x Hx Hna. by apply Hna.
  - destruct (calculate_consistency_Ok kind _ _ Hn Hcat) as (m & Hm & Hent).
    exists m. split; [done|]. intros c e He.
    destruct (decide (c ∈ or_default categorical_columns
                            (select_dtypes_object (df self)))) as [Hc|Hc].
    + destruct (proj1 (Hent c) Hc) as (s & e' & Hs & He' & _ & Hr & _).
      rewrite He' in He. injection He as <-.
      rewrite Hr, value_counts_length.
      apply (ratio_bounds (distinct_non_null s) (len_df (df self)));
        [|unfold len_df; lia].
      pose proof (distinct_non_null_bounds s) as Hb.
      rewrite (wf_df_column _ _ _ Hwf Hs) in Hb. done.
    + rewrite (proj2 (Hent c) Hc) in He. done.
Qed.

Lemma percentages_in_range_witness :
  (∃ scores,
     (calculate_completeness None (mkDashboard ex_df no_metrics)).1
     = Ok scores
     ∧ (∀ c x, scores !! c = Some x → is_percentage x)
     ∧ ∀ c, c ∈ or_default None (df_columns ex_df) →
         ∃ s q,
           lookup_col (data ex_df) c = Some s
           ∧ scores !! c = Some (fin q)
           ∧ (Forall notna (s_values s) → (q == 100)%Q)
           ∧ (Forall isna (s_values s) → (q == 0)%Q))
  ∧ (∃ m,
       (calculate_consistency stable_kind None (mkDashboard ex_df no_metrics)).1
           = Ok m
       ∧ ∀ c e, m !! c = Some e →
           (0 <= unique_ratio e)%Q ∧ (unique_ratio e <= 100)%Q).
Proof.
  apply (percentages_in_range stable_kind None None (mkDashboard ex_df
      no_metrics)).
  - apply ex_df_wf.
  - simpl. lia.
  - intros c Hc. simpl in Hc. by apply elem_of_nil in Hc.
  - intros c Hc. simpl in Hc. by apply elem_of_nil in Hc.
Defined.

(** C9, as stated, fails on a dataset without records: the completeness
    score of the column of a header-only file is [nan], no percentage. *)
Lemma completeness_header_only_no_percentage :
  ∃ scores,
    (calculate_completeness None (mkDashboard header_only_df no_metrics)).1
    = Ok scores
    ∧ scores !! "status"%string = Some nan
    ∧ ¬ is_percentage nan.
Proof.
  eexists. split; [reflexivity|]. split; [reflexivity|]. intros [].
Qed.

(** ** Missing values in the counts *)

(** C10 (amended).  On a dataset with at least one record
    [calculate_consistency] counts only the distinct values that are not
    missing: [unique_values] is their number, no missing value is among
    [most_common], and a column all of whose values are missing has
    [unique_values] 0, [unique_ratio] 0 and an empty [most_common]. *)
Theorem consistency_ignores_missing kind categorical_columns self :
  (0 < nrows (df self))%nat →
  (∀ c, c ∈ default [] categorical_columns → c ∈ df_columns (df self)) →
  ∃ m,
    (calculate_consistency kind categorical_columns self).1 = Ok m
    ∧ ∀ c,
        c ∈ or_default categorical_columns (select_dtypes_object (df self)) →
        ∃ s e,
          lookup_col (data (df self)) c = Some s
          ∧ m !! c = Some e
          ∧ unique_values e = distinct_non_null s
          ∧ (∀ v n, (v, n) ∈ most_common e → notna v)
          ∧ (Forall isna (s_values s) →
             unique_values e = 0
             ∧ (unique_ratio e == 0)%Q
             ∧ most_common e = []).
Proof.
  intros Hn Hcols.
  destruct (calculate_consistency_Ok kind _ _ Hn Hcols) as (m & Hm & Hent).
  exists m. split; [done|]. intros c Hc.
  destruct (proj1 (Hent c) Hc) as (s & e & Hs & He & Hu & Hr & Hmc).
  destruct (value_counts_spec kind s) as (Hk & _).
  exists s, e. split; [done|]. split; [done|].
  split; [by rewrite Hu, value_counts_length|]. split.
  - intros v n Hin. rewrite Hmc in Hin.
    apply elem_of_take in Hin as (i & Hi & _).
    apply (Hk v), list_elem_of_fmap. exists (v, n). split; [done|].
    by eapply list_elem_of_lookup_2.
  - intros Hall.
    assert (value_counts kind s = []) as Hnil.
    { unfold value_counts. rewrite filter_Forall_not.
      - apply Permutation_nil_r, sort_values_desc_perm.
      - eapply Forall_impl; [exact Hall|]. intros x Hx Hna. by apply Hna. }
    rewrite Hu, Hr, Hmc, Hnil. split; [done|]. split; [|done].
    apply ratio_zero.
Qed.

Lemma consistency_ignores_missing_witness :
  ∃ m,
    (calculate_consistency stable_kind None (mkDashboard half_null_df
        no_metrics)).1
    = Ok m
    ∧ ∀ c,
        c ∈ or_default None (select_dtypes_object half_null_df) →
        ∃ s e,
          lookup_col (data half_null_df) c = Some s
          ∧ m !! c = Some e
          ∧ unique_values e = distinct_non_null s
          ∧ (∀ v n, (v, n) ∈ most_common e → notna v)
          ∧ (Forall isna (s_values s) →
             unique_values e = 0
             ∧ (unique_ratio e == 0)%Q
             ∧ most_common e = []).
Proof.
  apply (consistency_ignores_missing stable_kind None
           (mkDashboard half_null_df no_metrics)).
  - simpl. lia.
  - intros c Hc. simpl in Hc. by apply elem_of_nil in Hc.
Defined.

(** C10, as stated, fails on a dataset without records: every value of the
    column of a header-only file is missing, and no entry is produced for
    it, the division by the number of records raises. *)
Lemma consistency_header_only_raises :
  lookup_col (data header_only_df) "status"
  = Some (mkSeries dt_object [])
  ∧ Forall isna ([] : list cell)
  ∧ (calculate_consistency stable_kind None (mkDashboard header_only_df
      no_metrics)).1
    = Raise ZeroDivisionError.
Proof. split; [reflexivity|]. split; [constructor | reflexivity]. Qed.

(** ** Parsing the dates *)

Section TimelinessFacts.

Variable parse_datetime : string → parsed.
Variable float_mean : list Z → Z.

Lemma to_datetime_cell_Ok c :
  ¬ unparsable parse_datetime c →
  to_datetime_cell parse_datetime c = Ok (parsed_cell parse_datetime c).
Proof.
  intros Hc. destruct c as [|str|n|t|t]; try reflexivity. simpl.
  destruct (parse_datetime str) eqn:Hp; try reflexivity.
  exfalso. apply Hc. by exists str.
Qed.

Lemma to_datetime_cells_Ok l :
  Forall (λ c, ¬ unparsable parse_datetime c) l →
  to_datetime_cells parse_datetime l = Ok (parsed_cell parse_datetime <$> l).
Proof.
  induction 1 as [|c l Hc _ IH]; [done|].
  simpl. rewrite to_datetime_cell_Ok by done. simpl. by rewrite IH.
Qed.

Lemma to_datetime_cells_Raise l :
  Exists (unparsable parse_datetime) l →
  ∃ str, Str str ∈ l ∧ parse_datetime str = Unparsable
         ∧ to_datetime_cells parse_datetime l = Raise (DateParseError str).
Proof.
  induction l as [|c l IH]; intros Hex; [by apply Exists_nil in Hex|].
  destruct (decide (unparsable parse_datetime c)) as [Hc|Hc].
  - destruct Hc as (str & -> & Hstr). exists str.
    split; [left|]. split; [done|]. simpl. by rewrite Hstr.
  - apply Exists_cons in Hex as [?|Hex]; [done|].
    destruct (IH Hex) as (str & Hin & Hstr & Hr). exists str.
    split; [by right|]. split; [done|].
    simpl. rewrite to_datetime_cell_Ok by done. simpl. by rewrite Hr.
Qed.

Lemma to_datetime_cells_inv l cells :
  to_datetime_cells parse_datetime l = Ok cells →
  Forall (λ c, ¬ unparsable parse_datetime c) l
  ∧ cells = parsed_cell parse_datetime <$> l.
Proof.
  intros Hok.
  destruct (decide (Exists (unparsable parse_datetime) l)) as [Hex|Hex].
  - destruct (to_datetime_cells_Raise l Hex) as (str & _ & _ & Hr).
    rewrite Hr in Hok. discriminate Hok.
  - apply not_Exists_Forall in Hex; [|intros c; apply _].
    rewrite to_datetime_cells_Ok in Hok by done.
    injection Hok as <-. done.
Qed.

Lemma existsb_aware_false l :
  Forall (λ c, is_aware (parsed_cell parse_datetime c) = false) l →
  existsb is_aware (parsed_cell parse_datetime <$> l) = false.
Proof. induction 1 as [|c l Hc _ IH]; [done|]. csimpl. by rewrite Hc, IH. Qed.

Lemma to_datetime_naive s :
  Forall (λ c, ¬ unparsable parse_datetime c) (s_values s) →
  naive_dates parse_datetime s →
  to_datetime parse_datetime s
  = Ok {| s_dtype := dt_datetime64;
          s_values := parsed_cell parse_datetime <$> s_values s |}.
Proof.
  intros Hall Hnaive. unfold to_datetime.
  rewrite to_datetime_cells_Ok by done. simpl.
  by rewrite existsb_aware_false.
Qed.

Lemma dropnat_time_differences now l :
  dropnat (td_sub now <$> (parsed_cell parse_datetime <$> l))
  = (λ t, now - t) <$> omap (stamp_of parse_datetime) l.
Proof.
  unfold dropnat. induction l as [|c l IH]; [done|].
  csimpl. unfold stamp_of at 1.
  destruct (parsed_cell parse_datetime c); csimpl; by rewrite IH.
Qed.

Lemma time_differences_Ok now dt s :
  naive_dates parse_datetime s →
  Forall in_int64 (ages parse_datetime now s) →
  time_differences now
    {| s_dtype := dt; s_values := parsed_cell parse_datetime <$> s_values s |}
  = Ok (td_sub now <$> (parsed_cell parse_datetime <$> s_values s)).
Proof.
  intros Hnaive Hrange. unfold time_differences. simpl.
  rewrite existsb_aware_false by done.
  rewrite dropnat_time_differences. by rewrite bool_decide_eq_true_2.
Qed.

Lemma calculate_timeliness_absent now date_column self :
  date_column ∉ df_columns (df self) →
  calculate_timeliness parse_datetime float_mean now date_column self
  = (Ok None, self).
Proof.
  intros Hc. unfold calculate_timeliness. by rewrite bool_decide_eq_false_2.
Qed.

Lemma calculate_timeliness_Raise now date_column self s :
  lookup_col (data (df self)) date_column = Some s →
  Exists (unparsable parse_datetime) (s_values s) →
  ∃ str, Str str ∈ s_values s ∧ parse_datetime str = Unparsable
         ∧ calculate_timeliness parse_datetime float_mean now date_column self
           = (Raise (DateParseError str), self).
Proof.
  intros Hs Hex.
  destruct (to_datetime_cells_Raise _ Hex) as (str & Hin & Hstr & Hr).
  exists str. split; [done|]. split; [done|].
  unfold calculate_timeliness. rewrite bool_decide_eq_true_2.
  - unfold df_getitem, to_datetime. rewrite Hs. simpl. by rewrite Hr.
  - apply lookup_col_is_Some. by rewrite Hs.
Qed.

(** The frame a call leaves behind once the dates are parsed, whatever
    follows. *)
Lemma calculate_timeliness_parsed now date_column self s dates :
  lookup_col (data (df self)) date_column = Some s →
  to_datetime parse_datetime s = Ok dates →
  calculate_timeliness parse_datetime float_mean now date_column self
  = match time_differences now dates with
    | Raise e =>
        (Raise e,
         {| df := df_setitem (df self) date_column dates;
            metrics := metrics self |})
    | Ok tds =>
        let tm :=
          {| average_age_days := td_days (td_mean float_mean tds);
             oldest_record_days := td_days (td_max tds);
             newest_record_days := td_days (td_min tds) |} in
        (Ok (Some tm),
         {| df := df_setitem (df self) date_column dates;
            metrics := {| m_completeness := m_completeness (metrics self);
                          m_timeliness := Some tm;
                          m_consistency := m_consistency (metrics self) |} |})
    end.
Proof.
  intros Hs Hd. unfold calculate_timeliness. rewrite bool_decide_eq_true_2.
  - unfold df_getitem. rewrite Hs. simpl. rewrite Hd.
    by destruct (time_differences now dates).
  - apply lookup_col_is_Some. by rewrite Hs.
Qed.

Lemma calculate_timeliness_Ok now date_column self s :
  lookup_col (data (df self)) date_column = Some s →
  Forall (λ c, ¬ unparsable parse_datetime c) (s_values s) →
  naive_dates parse_datetime s →
  Forall in_int64 (ages parse_datetime now s) →
  let tm :=
    {| average_age_days :=
         td_days (mean_opt float_mean (ages parse_datetime now s));
       oldest_record_days := td_days (max_Z (ages parse_datetime now s));
       newest_record_days := td_days (min_Z (ages parse_datetime now s)) |} in
  calculate_timeliness parse_datetime float_mean now date_column self
  = (Ok (Some tm),
     {| df := df_setitem (df self) date_column
                {| s_dtype := dt_datetime64;
                   s_values := parsed_cell parse_datetime <$> s_values s |};
        metrics := {| m_completeness := m_completeness (metrics self);
                      m_timeliness := Some tm;
                      m_consistency := m_consistency (metrics self) |} |}).
Proof.
  intros Hs Hall Hnaive Hrange.
  rewrite (calculate_timeliness_parsed _ _ _ _ _ Hs
             (to_datetime_naive _ Hall Hnaive)).
  rewrite time_differences_Ok by done. simpl.
  unfold td_mean, td_max, td_min.
  rewrite dropnat_time_differences. reflexivity.
Qed.

Lemma existsb_aware_false_inv l :
  existsb is_aware (parsed_cell parse_datetime <$> l) = false →
  Forall (λ c, is_aware (parsed_cell parse_datetime c) = false) l.
Proof.
  induction l as [|c l IH]; [constructor|]. csimpl.
  intros [Hc Hl]%orb_false_iff. constructor; auto.
Qed.

(** A call that returns metrics met nothing unparsable, no time zone and
    no age out of range. *)
Lemma calculate_timeliness_Ok_inv now date_column self s tm :
  lookup_col (data (df self)) date_column = Some s →
  (calculate_timeliness parse_datetime float_mean now date_column self).1
  = Ok (Some tm) →
  Forall (λ c, ¬ unparsable parse_datetime c) (s_values s)
  ∧ naive_dates parse_datetime s
  ∧ Forall in_int64 (ages parse_datetime now s).
Proof.
  intros Hs Hok.
  destruct (to_datetime parse_datetime s) as [dates|e] eqn:Hd.
  - rewrite (calculate_timeliness_parsed _ _ _ _ _ Hs Hd) in Hok.
    unfold to_datetime in Hd.
    destruct (to_datetime_cells parse_datetime (s_values s)) as [cells|]
      eqn:Hcells; simpl in Hd; [|done].
    apply to_datetime_cells_inv in Hcells as [Hall ->].
    destruct (existsb is_aware _ && existsb is_naive _); [done|].
    injection Hd as <-. unfold time_differences in Hok. simpl in Hok.
    destruct (existsb is_aware _) eqn:Haware; [done|].
    rewrite dropnat_time_differences in Hok.
    case_bool_decide as Hrange; [|done].
    split; [done|]. split; [by apply existsb_aware_false_inv | done].
  - revert Hok. unfold calculate_timeliness.
    rewrite bool_decide_eq_true_2
      by (apply lookup_col_is_Some; by rewrite Hs).
    unfold df_getitem. rewrite Hs. simpl. by rewrite Hd.
Qed.

End TimelinessFacts.

(** ** Reductions *)

Lemma foldl_max_spec x l :
  foldl Z.max x l ∈ x :: l ∧ ∀ a, a ∈ x :: l → a ≤ foldl Z.max x l.
Proof.
  revert x. induction l as [|y l IH]; intros x; simpl.
  - split; [left|]. by intros a ->%list_elem_of_singleton.
  - destruct (IH (Z.max x y)) as [Hin Hub]. split.
    + apply elem_of_cons in Hin as [Hm|Hin]; [|by do 2 right].
      rewrite Hm. destruct (Z.max_spec x y) as [[_ ->]|[_ ->]];
        [right; left | left].
    + intros a Ha. assert (Z.max x y ≤ foldl Z.max (Z.max x y) l) as Hm
        by (apply Hub; left).
      apply elem_of_cons in Ha as [->|Ha]; [lia|].
      apply elem_of_cons in Ha as [->|Ha]; [lia|]. apply Hub. by right.
Qed.

Lemma foldl_min_spec x l :
  foldl Z.min x l ∈ x :: l ∧ ∀ a, a ∈ x :: l → foldl Z.min x l ≤ a.
Proof.
  revert x. induction l as [|y l IH]; intros x; simpl.
  - split; [left|]. by intros a ->%list_elem_of_singleton.
  - destruct (IH (Z.min x y)) as [Hin Hlb]. split.
    + apply elem_of_cons in Hin as [Hm|Hin]; [|by do 2 right].
      rewrite Hm. destruct (Z.min_spec x y) as [[_ ->]|[_ ->]];
        [left | right; left].
    + intros a Ha. assert (foldl Z.min (Z.min x y) l ≤ Z.min x y) as Hm
        by (apply Hlb; left).
      apply elem_of_cons in Ha as [->|Ha]; [lia|].
      apply elem_of_cons in Ha as [->|Ha]; [lia|]. apply Hlb. by right.
Qed.

(** ** Timeliness *)

(** C4 (amended).  [calculate_timeliness] leaves the records without a
    date out of the three aggregates, which are taken over the ages of the
    dated records only; it does not count what it leaves out.  A date that
    cannot be parsed is not left out: the call raises the parse error and
    changes nothing.  When nothing is unparsable, no date has a time zone
    and every age fits [int64], the call returns the three metrics, and
    they are [NaN] when no record is dated. *)
Theorem timeliness_missing_and_unparsable
  (parse_datetime : string → parsed) (float_mean : list Z → Z)
  now date_column self s :
  lookup_col (data (df self)) date_column = Some s →
  (Exists (unparsable parse_datetime) (s_values s) →
     ∃ str, Str str ∈ s_values s ∧ parse_datetime str = Unparsable
            ∧ calculate_timeliness parse_datetime float_mean now date_column
                self
              = (Raise (DateParseError str), self))
  ∧ (Forall (λ c, ¬ unparsable parse_datetime c) (s_values s) →
     naive_dates parse_datetime s →
     Forall in_int64 (ages parse_datetime now s) →
     ∃ tm,
       (calculate_timeliness parse_datetime float_mean now date_column
          self).1
       = Ok (Some tm)
       ∧ average_age_days tm
         = td_days (mean_opt float_mean (ages parse_datetime now s))
       ∧ oldest_record_days tm = td_days (max_Z (ages parse_datetime now s))
       ∧ newest_record_days tm = td_days (min_Z (ages parse_datetime now s))
       ∧ (ages parse_datetime now s = [] →
          tm = {| average_age_days := DaysNaN;
                  oldest_record_days := DaysNaN;
                  newest_record_days := DaysNaN |})).
Proof.
  intros Hs. split.
  - by apply calculate_timeliness_Raise.
  - intros Hall Hnaive Hrange. eexists.
    rewrite (calculate_timeliness_Ok _ _ _ _ _ _ Hs Hall Hnaive Hrange).
    simpl. split; [reflexivity|]. do 3 (split; [reflexivity|]).
    by intros ->.
Qed.

Lemma ex_dates_parsable :
  Forall (λ c, ¬ unparsable parse_iso_date c)
    [Str "2024-01-01"; Str "2024-01-02"; NA].
Proof.
  repeat constructor; intros (str & [= <-] & Hstr); discriminate Hstr.
Qed.

Lemma timeliness_missing_and_unparsable_witness :
  (∃ str,
     Str str ∈ [Str "2024-01-01"; Str "unknown"]
     ∧ parse_iso_date str = Unparsable
     ∧ calculate_timeliness parse_iso_date exact_mean noon_jan_3
         "created_date" (mkDashboard bad_date_df no_metrics)
       = (Raise (DateParseError str), mkDashboard bad_date_df no_metrics))
  ∧ (calculate_timeliness parse_iso_date exact_mean noon_jan_3
       "created_date" (mkDashboard missing_dates_df no_metrics)).1
    = Ok (Some {| average_age_days := DaysNaN;
                  oldest_record_days := DaysNaN;
                  newest_record_days := DaysNaN |})
  ∧ ∃ tm,
      (calculate_timeliness parse_iso_date exact_mean noon_jan_3
         "created_date" (mkDashboard ex_df no_metrics)).1
      = Ok (Some tm)
      ∧ oldest_record_days tm = Days 2
      ∧ newest_record_days tm = Days 1.
Proof.
  split; [|split].
  - apply (timeliness_missing_and_unparsable parse_iso_date exact_mean
             noon_jan_3 "created_date" (mkDashboard bad_date_df no_metrics)
             (mkSeries dt_object [Str "2024-01-01"; Str "unknown"]));
      [reflexivity|].
    apply Exists_cons_tl, Exists_cons_hd. by exists "unknown"%string.
  - destruct (proj2 (timeliness_missing_and_unparsable parse_iso_date
                       exact_mean noon_jan_3 "created_date"
                       (mkDashboard missing_dates_df no_metrics)
                       (mkSeries dt_object [NA; NA]) eq_refl))
      as (tm & Htm & _ & _ & _ & Hnan).
    + repeat constructor; intros (str & [=] & _).
    + repeat constructor.
    + constructor.
    + rewrite Htm. rewrite (Hnan eq_refl). reflexivity.
  - destruct (proj2 (timeliness_missing_and_unparsable parse_iso_date
                       exact_mean noon_jan_3 "created_date"
                       (mkDashboard ex_df no_metrics)
                       (mkSeries dt_object
                          [Str "2024-01-01"; Str "2024-01-02"; NA]) eq_refl))
      as (tm & Htm & _ & Hold & Hnew & _).
    + apply ex_dates_parsable.
    + repeat constructor.
    + apply (bool_decide_unpack _). reflexivity.
    + exists tm. split; [exact Htm|]. split; [exact Hold | exact Hnew].
Defined.

(** C4, as stated, fails: a value that is no date is not left out of the
    aggregates, it makes the whole call raise, also when it is the only
    value of the column. *)
Lemma timeliness_unparsable_raises :
  calculate_timeliness parse_iso_date exact_mean noon_jan_3 "created_date"
    (mkDashboard bad_date_df no_metrics)
  = (Raise (DateParseError "unknown"), mkDashboard bad_date_df no_metrics)
  ∧ calculate_timeliness parse_iso_date exact_mean noon_jan_3 "created_date"
      (mkDashboard no_date_df no_metrics)
    = (Raise (DateParseError "unknown"), mkDashboard no_date_df no_metrics).
Proof. split; reflexivity. Qed.

Lemma div_floor_spec a : 
  (a `div` ns_per_day) * ns_per_day ≤ a
  ∧ a < (a `div` ns_per_day + 1) * ns_per_day.
Proof.
  pose proof (Z.div_mod a ns_per_day ltac:(done)) as Hd.
  pose proof (Z.mod_pos_bound a ns_per_day ltac:(done)) as Hm. lia.
Qed.

(** C6 (amended).  On a date column with at least one date,
    [average_age_days] is the number of whole days in the mean of the
    ages: the ages go into the mean as they are, in nanoseconds, and the
    mean is cut to days afterwards.  The cut is that of [Timedelta.days],
    which rounds down: the mean lies from [d] days up to, but not at,
    [d + 1] days.  The call returns these metrics when nothing is
    unparsable, no date has a time zone and every age fits [int64]. *)
Theorem average_age_is_days_of_mean
  (parse_datetime : string → parsed) (float_mean : list Z → Z)
  now date_column self s :
  lookup_col (data (df self)) date_column = Some s →
  ages parse_datetime now s ≠ [] →
  (∀ tm,
     (calculate_timeliness parse_datetime float_mean now date_column self).1
     = Ok (Some tm) →
     ∃ d,
       average_age_days tm = Days d
       ∧ d * ns_per_day ≤ float_mean (ages parse_datetime now s)
       ∧ float_mean (ages parse_datetime now s) < (d + 1) * ns_per_day)
  ∧ (Forall (λ c, ¬ unparsable parse_datetime c) (s_values s) →
     naive_dates parse_datetime s →
     Forall in_int64 (ages parse_datetime now s) →
     ∃ tm,
       (calculate_timeliness parse_datetime float_mean now date_column
          self).1
       = Ok (Some tm)).
Proof.
  intros Hs Hne. split.
  - intros tm Hok.
    destruct (calculate_timeliness_Ok_inv _ _ _ _ _ _ _ Hs Hok)
      as (Hall & Hnaive & Hrange).
    rewrite (calculate_timeliness_Ok _ _ _ _ _ _ Hs Hall Hnaive Hrange)
      in Hok.
    simpl in Hok. injection Hok as <-. simpl.
    destruct (ages parse_datetime now s) as [|x l] eqn:Hages; [done|].
    eexists. split; [reflexivity|]. apply div_floor_spec.
  - intros Hall Hnaive Hrange. eexists.
    by rewrite (calculate_timeliness_Ok _ _ _ _ _ _ Hs Hall Hnaive Hrange).
Qed.

Lemma average_age_is_days_of_mean_witness :
  (∀ tm,
     (calculate_timeliness parse_iso_date exact_mean noon_jan_3
        "created_date" (mkDashboard two_dates_df no_metrics)).1
     = Ok (Some tm) →
     ∃ d,
       average_age_days tm = Days d
       ∧ d * ns_per_day
         ≤ exact_mean
             (ages parse_iso_date noon_jan_3
                (mkSeries dt_object [Str "2024-01-02"; Str "2024-01-03"]))
       ∧ exact_mean
           (ages parse_iso_date noon_jan_3
              (mkSeries dt_object [Str "2024-01-02"; Str "2024-01-03"]))
         < (d + 1) * ns_per_day)
  ∧ ∃ tm,
      (calculate_timeliness parse_iso_date exact_mean noon_jan_3
         "created_date" (mkDashboard two_dates_df no_metrics)).1
      = Ok (Some tm).
Proof.
  destruct (average_age_is_days_of_mean parse_iso_date exact_mean noon_jan_3
              "created_date" (mkDashboard two_dates_df no_metrics)
              (mkSeries dt_object [Str "2024-01-02"; Str "2024-01-03"]))
    as [Hdays Hok].
  - reflexivity.
  - discriminate.
  - split; [exact Hdays|]. apply Hok.
    + repeat constructor; intros (str & [= <-] & Hstr); discriminate Hstr.
    + repeat constructor.
    + apply (bool_decide_unpack _). reflexivity.
Defined.

(** C6, as stated, fails on a mean below zero: a single record dated half
    a day after [now] has a mean age of minus half a day, which truncated
    to whole days is 0, while [average_age_days] is -1. *)
Lemma average_age_floors_negative_mean :
  (calculate_timeliness parse_iso_date exact_mean noon_jan_1 "created_date"
     (mkDashboard future_df no_metrics)).1
  = Ok (Some {| average_age_days := Days (-1);
                oldest_record_days := Days (-1);
                newest_record_days := Days (-1) |})
  ∧ ages parse_iso_date noon_jan_1 (mkSeries dt_object [Str "2024-01-02"])
    = [- (ns_per_day `div` 2)]
  ∧ (- (ns_per_day `div` 2)) `quot` ns_per_day = 0.
Proof. repeat split; reflexivity. Qed.

(** Ages of a day and a half and of half a day: their mean is one day,
    while the whole days in each are 1 and 0, whose mean has none. *)
Example average_age_two_dates :
  (calculate_timeliness parse_iso_date exact_mean noon_jan_3 "created_date"
     (mkDashboard two_dates_df no_metrics)).1
  = Ok (Some {| average_age_days := Days 1;
                oldest_record_days := Days 1;
                newest_record_days := Days 0 |})
  ∧ (λ a, a `div` ns_per_day)
    <$> ages parse_iso_date noon_jan_3
          (mkSeries dt_object [Str "2024-01-02"; Str "2024-01-03"])
    = [1; 0].
Proof. split; reflexivity. Qed.

(** C7.  On a date column with at least one date, the metrics
    [calculate_timeliness] returns have [oldest_record_days] the whole
    days of the largest age and [newest_record_days] those of the
    smallest, so the first is not below the second; an age below zero (a
    date after [now]) gives a negative number of days.  The call returns
    these metrics when nothing is unparsable, no date has a time zone and
    every age fits [int64]. *)
Theorem oldest_not_below_newest
  (parse_datetime : string → parsed) (float_mean : list Z → Z)
  now date_column self s :
  lookup_col (data (df self)) date_column = Some s →
  ages parse_datetime now s ≠ [] →
  (∀ tm,
     (calculate_timeliness parse_datetime float_mean now date_column self).1
     = Ok (Some tm) →
     ∃ amax amin,
       amax ∈ ages parse_datetime now s
       ∧ amin ∈ ages parse_datetime now s
       ∧ (∀ a, a ∈ ages parse_datetime now s → amin ≤ a ≤ amax)
       ∧ oldest_record_days tm = Days (amax `div` ns_per_day)
       ∧ newest_record_days tm = Days (amin `div` ns_per_day)
       ∧ amin `div` ns_per_day ≤ amax `div` ns_per_day
       ∧ (amin < 0 → amin `div` ns_per_day < 0))
  ∧ (Forall (λ c, ¬ unparsable parse_datetime c) (s_values s) →
     naive_dates parse_datetime s →
     Forall in_int64 (ages parse_datetime now s) →
     ∃ tm,
       (calculate_timeliness parse_datetime float_mean now date_column
          self).1
       = Ok (Some tm)).
Proof.
  intros Hs Hne. split.
  - intros tm Hok.
    destruct (calculate_timeliness_Ok_inv _ _ _ _ _ _ _ Hs Hok)
      as (Hall & Hnaive & Hrange).
    rewrite (calculate_timeliness_Ok _ _ _ _ _ _ Hs Hall Hnaive Hrange)
      in Hok.
    simpl in Hok. injection Hok as <-. simpl.
    destruct (ages parse_datetime now s) as [|x l] eqn:Hages; [done|].
    destruct (foldl_max_spec x l) as [Hmax_in Hmax].
    destruct (foldl_min_spec x l) as [Hmin_in Hmin].
    exists (foldl Z.max x l), (foldl Z.min x l). simpl.
    split; [done|]. split; [done|].
    split; [intros a Ha; split; auto|]. split; [reflexivity|].
    split; [reflexivity|]. split.
    + apply Z.div_le_mono; [reflexivity|]. etrans; [|apply Hmax; left].
      apply Hmin. left.
    + intros Hneg. apply Z.div_lt_upper_bound; [reflexivity|]. lia.
  - intros Hall Hnaive Hrange. eexists.
    by rewrite (calculate_timeliness_Ok _ _ _ _ _ _ Hs Hall Hnaive Hrange).
Qed.

Lemma oldest_not_below_newest_witness :
  ∃ tm amax amin,
    (calculate_timeliness parse_iso_date exact_mean noon_jan_1
       "created_date" (mkDashboard ex_df no_metrics)).1
    = Ok (Some tm)
    ∧ amax ∈ [ns_per_day `div` 2; - (ns_per_day `div` 2)]
    ∧ amin ∈ [ns_per_day `div` 2; - (ns_per_day `div` 2)]
    ∧ oldest_record_days tm = Days (amax `div` ns_per_day)
    ∧ newest_record_days tm = Days (amin `div` ns_per_day)
    ∧ amin `div` ns_per_day ≤ amax `div` ns_per_day
    ∧ (amin < 0 → amin `div` ns_per_day < 0).
Proof.
  destruct (oldest_not_below_newest parse_iso_date exact_mean noon_jan_1
              "created_date" (mkDashboard ex_df no_metrics)
              (mkSeries dt_object [Str "2024-01-01"; Str "2024-01-02"; NA]))
    as [Hrel Hok].
  - reflexivity.
  - discriminate.
  - destruct Hok as [tm Htm].
    + apply ex_dates_parsable.
    + repeat constructor.
    + apply (bool_decide_unpack _). reflexivity.
    + destruct (Hrel tm Htm)
        as (amax & amin & H1 & H2 & _ & H4 & H5 & H6 & H7).
      exists tm, amax, amin. repeat split; assumption.
Defined.

(** At noon of the first of January the record of the second is half a
    day ahead: its age is negative, and so is [newest_record_days]. *)
Example newest_record_in_the_future :
  (calculate_timeliness parse_iso_date exact_mean noon_jan_1 "created_date"
     (mkDashboard ex_df no_metrics)).1
  = Ok (Some {| average_age_days := Days 0;
                oldest_record_days := Days 0;
                newest_record_days := Days (-1) |}).
Proof. reflexivity. Qed.

(** Dates with a time zone, and dates more than some 292 years from
    [now], make the subtraction raise; the parsed dates are in the frame
    by then. *)
Example timeliness_raises_after_write_back :
  calculate_timeliness (λ _, ParsedAware 0) exact_mean noon_jan_1
    "created_date" (mkDashboard future_df no_metrics)
  = (Raise TypeError,
     mkDashboard
       (mkDataFrame 1
          [("created_date"%string, mkSeries dt_datetime64tz [StampTz 0])])
       no_metrics)
  ∧ calculate_timeliness (λ _, Parsed (- i8max)) exact_mean noon_jan_1
      "created_date" (mkDashboard future_df no_metrics)
    = (Raise OverflowError,
       mkDashboard
         (mkDataFrame 1
            [("created_date"%string,
               mkSeries dt_datetime64 [Stamp (- i8max)])])
         no_metrics).
Proof. split; reflexivity. Qed.

(** ** What the methods do to the frame *)

Lemma lookup_assign_col cols col s c :
  lookup_col (assign_col cols col s) c
  = if decide (c = col) then Some s else lookup_col cols c.
Proof.
  induction cols as [|[k s0] rest IH]; simpl.
  - destruct (decide (col = c)) as [->|?].
    + by rewrite decide_True.
    + by rewrite decide_False.
  - destruct (decide (k = col)) as [->|Hk]; simpl.
    + destruct (decide (col = c)) as [->|?].
      * by rewrite decide_True.
      * by rewrite decide_False.
    + destruct (decide (k = c)) as [->|?]; [|done].
      by rewrite decide_False.
Qed.

Lemma assign_col_labels cols col s :
  col ∈ cols.*1 → (assign_col cols col s).*1 = cols.*1.
Proof.
  induction cols as [|[k s0] rest IH]; simpl.
  - by intros ?%elem_of_nil.
  - intros Hin. destruct (decide (k = col)) as [->|Hk]; [done|].
    csimpl. f_equal. apply IH.
    apply elem_of_cons in Hin as [?|?]; [by subst | done].
Qed.

Lemma unchanged_except_refl col f : unchanged_except col f f.
Proof. by repeat split. Qed.

Lemma unchanged_except_setitem col f s :
  col ∈ df_columns f → unchanged_except col f (df_setitem f col s).
Proof.
  intros Hcol. split; [done|]. split.
  - by apply assign_col_labels.
  - intros c Hc. simpl. rewrite lookup_assign_col. by rewrite decide_False.
Qed.

Lemma calculate_completeness_df columns self :
  df (calculate_completeness columns self).2 = df self.
Proof.
  unfold calculate_completeness. by destruct (completeness_loop _ _ _).
Qed.

Lemma calculate_consistency_df kind categorical_columns self :
  df (calculate_consistency kind categorical_columns self).2 = df self.
Proof.
  unfold calculate_consistency. by destruct (consistency_loop kind _ _ _).
Qed.

Lemma calculate_timeliness_df parse_datetime float_mean now date_column self :
  unchanged_except date_column (df self)
    (df (calculate_timeliness parse_datetime float_mean now date_column
           self).2).
Proof.
  unfold calculate_timeliness. case_bool_decide as Hcol.
  - destruct (let! s := _ in _) as [dates|]; simpl.
    + destruct (time_differences now dates);
        by apply unchanged_except_setitem.
    + apply unchanged_except_refl.
  - apply unchanged_except_refl.
Qed.

Lemma calculate_timeliness_df_eq
  parse_datetime float_mean now date_column self self' :
  df self = df self' →
  df (calculate_timeliness parse_datetime float_mean now date_column self).2
  = df (calculate_timeliness parse_datetime float_mean now date_column
          self').2.
Proof.
  destruct self as [f ms], self' as [f' ms']. simpl. intros <-.
  unfold calculate_timeliness. simpl. case_bool_decide; [|done].
  destruct (let! s := _ in _) as [dates|]; [|done].
  by destruct (time_differences now dates).
Qed.

Lemma generate_report_cached parse_datetime float_mean kind now stamp self :
  metrics_empty (metrics self) = false →
  generate_report parse_datetime float_mean kind now stamp self
  = (Ok {| report_generated := stamp;
           dataset_size := len_df (df self);
           report_metrics := metrics self |}, self).
Proof. intros Hm. unfold generate_report, mbind. by rewrite Hm. Qed.

Lemma generate_report_df parse_datetime float_mean kind now stamp self :
  metrics_empty (metrics self) = true →
  df (generate_report parse_datetime float_mean kind now stamp self).2
  = df (calculate_timeliness parse_datetime float_mean now "created_date"
          self).2.
Proof.
  intros Hm. unfold generate_report, mbind. rewrite Hm.
  pose proof (calculate_completeness_df None self) as H1.
  destruct (calculate_completeness_Ok None self) as (scores & Hsc & _);
    [by intros c ?%elem_of_nil|].
  destruct (calculate_completeness None self) as [[a1|e1] s1];
    simpl in *; [|done].
  rewrite <-(calculate_timeliness_df_eq _ _ _ _ s1 self H1).
  destruct (calculate_timeliness parse_datetime float_mean now
              "created_date" s1) as [[a2|e2] s2]; simpl; [|done].
  pose proof (calculate_consistency_df kind None s2) as H3.
  by destruct (calculate_consistency kind None s2) as [[a3|e3] s3].
Qed.

(** C3 (amended).  [calculate_completeness] and [calculate_consistency]
    leave the dataset as it is.  [calculate_timeliness] writes the parsed
    dates back: once [pd.to_datetime] has accepted the date column, the
    frame holds its outcome, the parsed timestamps, in place of the values
    the column held, also when the call raises afterwards; the frame is
    untouched when the column is refused.  The number of records, the
    column labels and every other column are never changed.
    [generate_report] leaves the dataset as [calculate_timeliness] on
    [created_date] leaves it when no metrics are stored, and as it is
    otherwise. *)
Theorem dataset_changed_by_timeliness_only
  (parse_datetime : string → parsed) (float_mean : list Z → Z)
  (kind : sort_kind)
  now stamp date_column columns categorical_columns self :
  df (calculate_completeness columns self).2 = df self
  ∧ df (calculate_consistency kind categorical_columns self).2 = df self
  ∧ unchanged_except date_column (df self)
      (df (calculate_timeliness parse_datetime float_mean now date_column
             self).2)
  ∧ (∀ s dates,
       lookup_col (data (df self)) date_column = Some s →
       to_datetime parse_datetime s = Ok dates →
       s_values dates = parsed_cell parse_datetime <$> s_values s
       ∧ lookup_col
           (data (df (calculate_timeliness parse_datetime float_mean now
                        date_column self).2)) date_column
         = Some dates)
  ∧ (∀ s e,
       lookup_col (data (df self)) date_column = Some s →
       to_datetime parse_datetime s = Raise e →
       df (calculate_timeliness parse_datetime float_mean now date_column
             self).2
       = df self)
  ∧ (metrics_empty (metrics self) = true →
     df (generate_report parse_datetime float_mean kind now stamp self).2
     = df (calculate_timeliness parse_datetime float_mean now
             "created_date" self).2)
  ∧ (metrics_empty (metrics self) = false →
     df (generate_report parse_datetime float_mean kind now stamp self).2
     = df self).
Proof.
  split; [apply calculate_completeness_df|].
  split; [apply calculate_consistency_df|].
  split; [apply calculate_timeliness_df|].
  split; [|split; [|split]].
  - intros s dates Hs Hd. split.
    + unfold to_datetime in Hd.
      destruct (to_datetime_cells parse_datetime (s_values s)) as [cells|]
        eqn:Hcells; simpl in Hd; [|done].
      apply to_datetime_cells_inv in Hcells as [_ ->].
      destruct (_ && _); [done|]. by injection Hd as <-.
    + rewrite (calculate_timeliness_parsed _ _ _ _ _ _ _ Hs Hd).
      destruct (time_differences now dates); simpl;
        rewrite lookup_assign_col; by rewrite decide_True.
  - intros s e Hs Hd. unfold calculate_timeliness.
    case_bool_decide; [|done]. unfold df_getitem. rewrite Hs. simpl.
    by rewrite Hd.
  - apply generate_report_df.
  - intros Hm. by rewrite generate_report_cached.
Qed.

(** C3, as stated, fails: after [calculate_timeliness] the date column of
    the example holds timestamps, no longer the strings it held. *)
Lemma timeliness_rewrites_date_column :
  lookup_col
    (data (df (calculate_timeliness parse_iso_date exact_mean noon_jan_3
        "created_date"
                 (mkDashboard ex_df no_metrics)).2)) "created_date"
  = Some (mkSeries dt_datetime64
            [Stamp (19723 * ns_per_day); Stamp (19724 * ns_per_day); NA])
  ∧ df (calculate_timeliness parse_iso_date exact_mean noon_jan_3 "created_date"
          (mkDashboard ex_df no_metrics)).2 ≠ ex_df
  ∧ df (generate_report parse_iso_date exact_mean stable_kind noon_jan_3
      noon_jan_3
          (mkDashboard ex_df no_metrics)).2 ≠ ex_df.
Proof.
  split; [reflexivity|]. split.
  - intros H. vm_compute in H. discriminate H.
  - intros H. apply (f_equal (λ f, lookup_col (data f) "created_date")) in H.
    vm_compute in H. discriminate H.
Qed.

(** ** Reports *)

Lemma generate_report_metrics parse_datetime float_mean kind now stamp self r
    self1 :
  generate_report parse_datetime float_mean kind now stamp self
  = (Ok r, self1) →
  metrics_empty (metrics self1) = false ∧ report_metrics r = metrics self1.
Proof.
  unfold generate_report, mbind.
  destruct (metrics_empty (metrics self)) eqn:Hm.
  - unfold calculate_completeness at 1.
    destruct (completeness_loop _ _ _) as [scores|e]; [|done].
    set (s1 := {| df := df self; metrics := _ |}).
    assert (is_Some (m_completeness (metrics s1))) as H1 by (by eexists).
    clearbody s1.
    assert (∀ s2 a, (calculate_timeliness parse_datetime float_mean now
        "created_date"
                       s1) = (Ok a, s2) →
                    is_Some (m_completeness (metrics s2))) as H2.
    { intros s2 a. unfold calculate_timeliness.
      case_bool_decide; [|by intros [= _ <-]].
      destruct (let! s := _ in _) as [dates|]; [|done].
      destruct (time_differences now dates); [|done]. by intros [= _ <-]. }
    destruct (calculate_timeliness _ _ _ _ s1) as [[a2|e2] s2]; [|done].
    specialize (H2 s2 a2 eq_refl).
    unfold calculate_consistency.
    destruct (consistency_loop kind _ _ _) as [m|e]; [|done].
    intros [= <- <-]. simpl. split; [|done].
    unfold metrics_empty. simpl. by destruct H2 as [? ->].
  - intros [= <- <-]. done.
Qed.

Lemma calculate_completeness_split columns self :
  let run :=
    calculate_completeness columns
      {| df := df self; metrics := no_metrics |} in
  calculate_completeness columns self
  = (run.1,
     {| df := df self;
        metrics :=
          match run.1 with
          | Ok scores =>
              {| m_completeness := Some scores;
                 m_timeliness := m_timeliness (metrics self);
                 m_consistency := m_consistency (metrics self) |}
          | Raise _ => metrics self
          end |}).
Proof.
  destruct self as [f ms]. unfold calculate_completeness. simpl.
  by destruct (completeness_loop _ _ _).
Qed.

Lemma calculate_timeliness_split
  parse_datetime float_mean now date_column self :
  let run :=
    calculate_timeliness parse_datetime float_mean now date_column
      {| df := df self; metrics := no_metrics |} in
  calculate_timeliness parse_datetime float_mean now date_column self
  = (run.1,
     {| df := df run.2;
        metrics :=
          match run.1 with
          | Ok (Some tm) =>
              {| m_completeness := m_completeness (metrics self);
                 m_timeliness := Some tm;
                 m_consistency := m_consistency (metrics self) |}
          | _ => metrics self
          end |}).
Proof.
  destruct self as [f ms]. unfold calculate_timeliness. simpl.
  case_bool_decide; [|done].
  destruct (let! s := _ in _) as [dates|]; [|done].
  by destruct (time_differences now dates).
Qed.

Lemma calculate_timeliness_fst
  parse_datetime float_mean now date_column self self' :
  df self = df self' →
  (calculate_timeliness parse_datetime float_mean now date_column self).1
  = (calculate_timeliness parse_datetime float_mean now date_column self').1.
Proof.
  intros Hdf. rewrite (calculate_timeliness_split _ _ _ _ self).
  rewrite (calculate_timeliness_split _ _ _ _ self'). simpl.
  by rewrite Hdf.
Qed.

Lemma calculate_consistency_split kind categorical_columns self :
  let run :=
    calculate_consistency kind categorical_columns
      {| df := df self; metrics := no_metrics |} in
  calculate_consistency kind categorical_columns self
  = (run.1,
     {| df := df self;
        metrics :=
          match run.1 with
          | Ok m =>
              {| m_completeness := m_completeness (metrics self);
                 m_timeliness := m_timeliness (metrics self);
                 m_consistency := Some m |}
          | Raise _ => metrics self
          end |}).
Proof.
  destruct self as [f ms]. unfold calculate_consistency. simpl.
  by destruct (consistency_loop kind _ _ _).
Qed.

Lemma calculate_consistency_fst kind categorical_columns self self' :
  df self = df self' →
  (calculate_consistency kind categorical_columns self).1
  = (calculate_consistency kind categorical_columns self').1.
Proof.
  intros Hdf. rewrite (calculate_consistency_split kind _ self).
  rewrite (calculate_consistency_split kind _ self'). simpl. by rewrite Hdf.
Qed.

(** C2 (amended).  [generate_report] computes the metrics only when none
    are stored: it then runs the three computations on the dataset as it
    is, and the report carries what they return.  Once a call has returned
    a report, every later call returns the stored metrics as they are,
    whatever the dataset then is: two calls on an unchanged dataset give
    equal metrics, and a call after a change of the dataset gives the
    metrics of the dataset before the change (with the size of the
    dataset after it). *)
Theorem generate_report_reuses_metrics
  (parse_datetime : string → parsed) (float_mean : list Z → Z)
  (kind : sort_kind)
  now stamp self :
  (metrics_empty (metrics self) = true →
   ∀ scores t m,
     (calculate_completeness None self).1 = Ok scores →
     (calculate_timeliness parse_datetime float_mean now "created_date"
        self).1 = Ok t →
     (calculate_consistency kind None
        (calculate_timeliness parse_datetime float_mean now "created_date"
           self).2).1 = Ok m →
     let computed := {| m_completeness := Some scores;
                        m_timeliness := t;
                        m_consistency := Some m |} in
     generate_report parse_datetime float_mean kind now stamp self
     = (Ok {| report_generated := stamp;
              dataset_size := len_df (df self);
              report_metrics := computed |},
        {| df := df (calculate_timeliness parse_datetime float_mean now
                       "created_date" self).2;
           metrics := computed |}))
  ∧ (∀ r self1,
       generate_report parse_datetime float_mean kind now stamp self
       = (Ok r, self1) →
       ∀ frame' now' stamp',
         generate_report parse_datetime float_mean kind now' stamp'
           {| df := frame'; metrics := metrics self1 |}
         = (Ok {| report_generated := stamp';
                  dataset_size := len_df frame';
                  report_metrics := report_metrics r |},
            {| df := frame'; metrics := metrics self1 |})).
Proof.
  split.
  - intros Hm scores t m Hsc Ht Hk.
    destruct self as [f ms].
    assert (ms = no_metrics) as ->.
    { destruct ms as [[?|] [?|] [?|]]; by try discriminate Hm. }
    pose proof (calculate_timeliness_df parse_datetime float_mean now
                  "created_date" (mkDashboard f no_metrics)) as [Hrows _].
    set (run := calculate_timeliness parse_datetime float_mean now
                  "created_date" (mkDashboard f no_metrics)) in *.
    rewrite (calculate_consistency_fst kind None _ (mkDashboard (df run.2)
                                                 no_metrics)) in Hk by done.
    unfold generate_report, mbind. cbn [metrics df metrics_empty].
    simpl (metrics_empty no_metrics).
    rewrite calculate_completeness_split. cbn [df metrics fst snd].
    rewrite Hsc.
    rewrite calculate_timeliness_split. cbn [df metrics fst snd].
    fold run. rewrite Ht.
    rewrite calculate_consistency_split. cbn [df metrics fst snd].
    rewrite Hk. simpl in Hrows. unfold len_df. rewrite <-Hrows.
    by destruct t.
  - intros r self1 [Hm Hr]%generate_report_metrics frame' now' stamp'.
    rewrite generate_report_cached by done. by rewrite Hr.
Qed.

Lemma generate_report_reuses_metrics_witness :
  let computed :=
    {| m_completeness :=
         Some {[ "status"%string := fin (300 # 3);
                 "created_date"%string := fin (200 # 3) ]};
       m_timeliness :=
         Some {| average_age_days := Days 2;
                 oldest_record_days := Days 2;
                 newest_record_days := Days 1 |};
       m_consistency :=
         Some {[ "status"%string :=
                   {| unique_values := 2;
                      unique_ratio := 200 # 3;
                      most_common := [(Str "Open", 2); (Str "Closed", 1)] |}
              ]} |} in
  generate_report parse_iso_date exact_mean stable_kind noon_jan_3 noon_jan_3
    (mkDashboard ex_df no_metrics)
  = (Ok {| report_generated := noon_jan_3;
           dataset_size := 3;
           report_metrics := computed |},
     {| df := df (calculate_timeliness parse_iso_date exact_mean noon_jan_3
                    "created_date" (mkDashboard ex_df no_metrics)).2;
        metrics := computed |})
  ∧ generate_report parse_iso_date exact_mean stable_kind noon_jan_1 noon_jan_1
      {| df := ex_df_grown; metrics := computed |}
    = (Ok {| report_generated := noon_jan_1;
             dataset_size := len_df ex_df_grown;
             report_metrics := computed |},
       {| df := ex_df_grown; metrics := computed |}).
Proof.
  intros computed.
  destruct (generate_report_reuses_metrics parse_iso_date exact_mean stable_kind
              noon_jan_3 noon_jan_3 (mkDashboard ex_df no_metrics))
    as [Hfirst Hlater].
  assert (generate_report parse_iso_date exact_mean stable_kind noon_jan_3
      noon_jan_3
            (mkDashboard ex_df no_metrics)
          = (Ok {| report_generated := noon_jan_3;
                   dataset_size := 3;
                   report_metrics := computed |},
             {| df := df (calculate_timeliness parse_iso_date exact_mean
                            noon_jan_3 "created_date"
                            (mkDashboard ex_df no_metrics)).2;
                metrics := computed |})) as Hrun.
  { apply (Hfirst eq_refl); reflexivity. }
  split; [exact Hrun|]. apply (Hlater _ _ Hrun).
Defined.

(** C2, as stated, fails: a second report, asked for after the dataset has
    grown by a record, carries the metrics of the first report and not
    those of the dataset as it is. *)
Lemma second_report_is_stale :
  ∃ r1 self1 r2 self2 fresh self3,
    generate_report parse_iso_date exact_mean stable_kind noon_jan_3 noon_jan_3
      (mkDashboard ex_df no_metrics) = (Ok r1, self1)
    ∧ generate_report parse_iso_date exact_mean stable_kind noon_jan_3
        noon_jan_3
        {| df := ex_df_grown; metrics := metrics self1 |} = (Ok r2, self2)
    ∧ generate_report parse_iso_date exact_mean stable_kind noon_jan_3
        noon_jan_3
        (mkDashboard ex_df_grown no_metrics) = (Ok fresh, self3)
    ∧ report_metrics r2 = report_metrics r1
    ∧ report_metrics r2 ≠ report_metrics fresh.
Proof.
  eexists _, _, _, _, _, _.
  split; [reflexivity|]. split; [reflexivity|]. split; [reflexivity|].
  split; [reflexivity|].
  intros H.
  apply (f_equal (λ m, m_completeness m ≫= (.!! "created_date"%string))) in H.
  vm_compute in H. discriminate H.
Qed.

(** ** The scenario of the specification *)

Example scenario_completeness :
  ∃ scores,
    (calculate_completeness None (mkDashboard ex_df no_metrics)).1
    = Ok scores
    ∧ scores !! "created_date"%string = Some (fin (200 # 3))
    ∧ scores !! "status"%string = Some (fin (300 # 3)).
Proof. eexists. repeat split; reflexivity. Qed.

Example scenario_consistency :
  ∃ m,
    (calculate_consistency stable_kind (Some ["status"%string])
       (mkDashboard ex_df no_metrics)).1 = Ok m
    ∧ m !! "status"%string
      = Some {| unique_values := 2;
                unique_ratio := 200 # 3;
                most_common := [(Str "Open", 2); (Str "Closed", 1)] |}.
Proof. eexists. split; reflexivity. Qed.

(** * Further properties of the methods *)

(** ** Columns that do not exist *)

Lemma completeness_loop_KeyError frame pre c post acc :
  (∀ x, x ∈ pre → x ∈ df_columns frame) → c ∉ df_columns frame →
  completeness_loop frame (pre ++ c :: post) acc = Raise (KeyError c).
Proof.
  intros Hpre Hc. revert acc.
  induction pre as [|x pre IH]; intros acc; simpl; unfold df_getitem.
  - destruct (lookup_col (data frame) c) as [s|] eqn:Hs; [|done].
    exfalso. apply Hc, lookup_col_is_Some. by rewrite Hs.
  - destruct (proj1 (lookup_col_is_Some (data frame) x)) as [s ->].
    { apply Hpre. left. }
    simpl. apply IH. intros y Hy. apply Hpre. by right.
Qed.

(** X1.  Asked for a column the dataset does not have,
    [calculate_completeness] raises [KeyError] for the first such column
    and leaves the dataset and the stored metrics as they were: no score is
    kept, not even those of the columns before it. *)
Theorem completeness_missing_column columns self pre c post :
  or_default columns (df_columns (df self)) = pre ++ c :: post →
  (∀ x, x ∈ pre → x ∈ df_columns (df self)) →
  c ∉ df_columns (df self) →
  calculate_completeness columns self = (Raise (KeyError c), self).
Proof.
  intros Heq Hpre Hc. unfold calculate_completeness.
  rewrite Heq. by rewrite completeness_loop_KeyError.
Qed.

Lemma completeness_missing_column_witness :
  calculate_completeness (Some ["status"; "priority"; "created_date"]%string)
    (mkDashboard ex_df no_metrics)
  = (Raise (KeyError "priority"), mkDashboard ex_df no_metrics).
Proof.
  apply (completeness_missing_column
           (Some ["status"; "priority"; "created_date"]%string)
           (mkDashboard ex_df no_metrics)
           ["status"%string] "priority" ["created_date"%string]).
  - reflexivity.
  - intros x Hx. apply list_elem_of_singleton in Hx as ->. left.
  - apply (bool_decide_unpack _). reflexivity.
Defined.

Lemma consistency_loop_KeyError kind frame pre c post acc :
  (0 < nrows frame)%nat ∨ pre = [] →
  (∀ x, x ∈ pre → x ∈ df_columns frame) → c ∉ df_columns frame →
  consistency_loop kind frame (pre ++ c :: post) acc = Raise (KeyError c).
Proof.
  intros Hn Hpre Hc. revert acc.
  induction pre as [|x pre IH]; intros acc; simpl; unfold df_getitem.
  - destruct (lookup_col (data frame) c) as [s|] eqn:Hs; [|done].
    exfalso. apply Hc, lookup_col_is_Some. by rewrite Hs.
  - destruct Hn as [Hn|?]; [|done].
    destruct (proj1 (lookup_col_is_Some (data frame) x)) as [s ->].
    { apply Hpre. left. }
    simpl. rewrite consistency_of_nonempty by done. simpl.
    apply IH; [by left|]. intros y Hy. apply Hpre. by right.
Qed.

(** X2.  Asked for a column the dataset does not have,
    [calculate_consistency] raises [KeyError] for the first such column
    and changes nothing, provided the dataset has a record or the column
    is the first one asked for (on a dataset without records a column that
    exists raises [ZeroDivisionError] before). *)
Theorem consistency_missing_column kind categorical_columns self pre c post :
  or_default categorical_columns (select_dtypes_object (df self))
  = pre ++ c :: post →
  (0 < nrows (df self))%nat ∨ pre = [] →
  (∀ x, x ∈ pre → x ∈ df_columns (df self)) →
  c ∉ df_columns (df self) →
  calculate_consistency kind categorical_columns self = (Raise (KeyError c),
      self).
Proof.
  intros Heq Hn Hpre Hc. unfold calculate_consistency.
  rewrite Heq. by rewrite consistency_loop_KeyError.
Qed.

Lemma consistency_missing_column_witness :
  calculate_consistency stable_kind (Some ["status"; "priority"]%string)
    (mkDashboard ex_df no_metrics)
  = (Raise (KeyError "priority"), mkDashboard ex_df no_metrics).
Proof.
  apply (consistency_missing_column stable_kind (Some ["status";
      "priority"]%string)
           (mkDashboard ex_df no_metrics) ["status"%string] "priority" []).
  - reflexivity.
  - left. simpl. lia.
  - intros x Hx. apply list_elem_of_singleton in Hx as ->. left.
  - apply (bool_decide_unpack _). reflexivity.
Defined.

(** ** What a call stores *)

Lemma calculate_completeness_run columns self :
  (∀ c, c ∈ default [] columns → c ∈ df_columns (df self)) →
  ∃ scores,
    calculate_completeness columns self
    = (Ok scores,
       {| df := df self;
          metrics := {| m_completeness := Some scores;
                        m_timeliness := m_timeliness (metrics self);
                        m_consistency := m_consistency (metrics self) |} |}).
Proof.
  intros Hcols.
  destruct (calculate_completeness_Ok columns self Hcols) as (scores & Hsc & _).
  exists scores. revert Hsc. unfold calculate_completeness.
  destruct (completeness_loop _ _ _); simpl; [|done]. by intros [= ->].
Qed.

Lemma calculate_consistency_run kind categorical_columns self :
  (0 < nrows (df self))%nat
  ∨ or_default categorical_columns (select_dtypes_object (df self)) = [] →
  (∀ c, c ∈ default [] categorical_columns → c ∈ df_columns (df self)) →
  ∃ m,
    calculate_consistency kind categorical_columns self
    = (Ok m,
       {| df := df self;
          metrics := {| m_completeness := m_completeness (metrics self);
                        m_timeliness := m_timeliness (metrics self);
                        m_consistency := Some m |} |}).
Proof.
  intros Hn Hcols. unfold calculate_consistency.
  assert (∃ m, consistency_loop kind (df self)
                 (or_default categorical_columns
                    (select_dtypes_object (df self))) ∅ = Ok m)
    as [m ->]; [|by exists m].
  destruct Hn as [Hn | ->]; [|by exists ∅].
  apply consistency_loop_total; [done|].
  apply or_default_elem_of; [apply select_dtypes_object_columns | done].
Qed.

(** X3.  When the columns asked for exist, [calculate_completeness]
    returns one score for each of them and for no other column, and stores
    exactly what it returns under [completeness]: scores stored by an
    earlier call are dropped, the other two families and the dataset are
    kept. *)
Theorem completeness_replaces_stored_scores columns self :
  (∀ c, c ∈ default [] columns → c ∈ df_columns (df self)) →
  ∃ scores,
    calculate_completeness columns self
    = (Ok scores,
       {| df := df self;
          metrics := {| m_completeness := Some scores;
                        m_timeliness := m_timeliness (metrics self);
                        m_consistency := m_consistency (metrics self) |} |})
    ∧ ∀ c, is_Some (scores !! c)
           ↔ c ∈ or_default columns (df_columns (df self)).
Proof.
  intros Hcols.
  destruct (calculate_completeness_Ok columns self Hcols)
    as (scores & Hsc & Hent).
  exists scores. split.
  - revert Hsc. unfold calculate_completeness.
    destruct (completeness_loop _ _ _); simpl; [|done]. by intros [= ->].
  - intros c. destruct (Hent c) as [Hin Hout]. split.
    + intros Hsome.
      destruct (decide (c ∈ or_default columns (df_columns (df self))))
        as [|Hc]; [done|].
      rewrite (Hout Hc) in Hsome. by destruct Hsome.
    + intros Hc. destruct (Hin Hc) as (s & _ & ->). by eexists.
Qed.

Lemma completeness_replaces_stored_scores_witness :
  ∃ scores,
    calculate_completeness (Some ["status"%string])
      (calculate_completeness None (mkDashboard ex_df no_metrics)).2
    = (Ok scores,
       {| df := ex_df;
          metrics := {| m_completeness := Some scores;
                        m_timeliness := None;
                        m_consistency := None |} |})
    ∧ ∀ c, is_Some (scores !! c) ↔ c ∈ ["status"%string].
Proof.
  apply (completeness_replaces_stored_scores (Some ["status"%string])
           (calculate_completeness None (mkDashboard ex_df no_metrics)).2).
  intros c Hc. apply list_elem_of_singleton in Hc as ->. left.
Defined.

(** ** Counts of values *)

Lemma occurrences_pos k l : k ∈ l → 0 < occurrences k l.
Proof.
  intros Hk. unfold occurrences.
  destruct (filter (λ x, x = k) l) as [|y l'] eqn:Hf; [|simpl; lia].
  exfalso. eapply (filter_nil_not_elem_of _ _ k Hf); done.
Qed.

Lemma sum_Z_app l k : sum_Z (l ++ k) = sum_Z l + sum_Z k.
Proof. induction l as [|x l IH]; simpl; [done|]. rewrite IH. lia. Qed.

Lemma sum_Z_perm l k : l ≡ₚ k → sum_Z l = sum_Z k.
Proof. induction 1; simpl; lia. Qed.

Lemma sum_Z_nonneg l : Forall (λ x, 0 ≤ x) l → 0 ≤ sum_Z l.
Proof. induction 1; simpl; lia. Qed.

Lemma count_add_sum v tbl :
  sum_Z (count_add v tbl).*2 = sum_Z tbl.*2 + 1.
Proof.
  induction tbl as [|[k c] rest IH]; [done|].
  cbn [count_add]. case_decide; csimpl; [|rewrite IH]; lia.
Qed.

Lemma count_table_sum l : sum_Z (count_table l).*2 = Z.of_nat (length l).
Proof.
  induction l as [|v l IH] using rev_ind; [done|].
  unfold count_table in *. rewrite foldl_app. simpl.
  rewrite count_add_sum, IH, length_app. simpl. lia.
Qed.

Lemma value_counts_sum kind s : sum_Z (value_counts kind s).*2 = series_count s.
Proof.
  unfold value_counts, series_count.
  rewrite <-count_table_sum. apply sum_Z_perm.
  by rewrite sort_values_desc_perm.
Qed.

Lemma value_counts_positive kind s v n : (v, n) ∈ value_counts kind s → 1 ≤ n.
Proof.
  intros Hin. destruct (value_counts_spec kind s) as (Hk & _ & Hcnt & _).
  rewrite (Hcnt _ _ Hin).
  assert (v ∈ s_values s) as Hv.
  { apply (Hk v), list_elem_of_fmap. by exists (v, n). }
  apply occurrences_pos in Hv. lia.
Qed.

Lemma distinct_le_series_count s : distinct_non_null s ≤ series_count s.
Proof.
  unfold distinct_non_null, series_count. apply inj_le.
  apply submseteq_length, NoDup_submseteq; [apply NoDup_remove_dups|].
  intros x. by rewrite elem_of_remove_dups.
Qed.

(** X4.  In every entry [calculate_consistency] returns, [unique_values]
    is at least 0 and at most the number of values of the column that are
    not missing, which is at most the number of records; it is 0 only when
    every value of the column is missing. *)
Theorem unique_values_bounds kind categorical_columns self m c e :
  wf_df (df self) →
  (calculate_consistency kind categorical_columns self).1 = Ok m →
  m !! c = Some e →
  ∃ s,
    lookup_col (data (df self)) c = Some s
    ∧ 0 ≤ unique_values e ≤ series_count s
    ∧ series_count s ≤ len_df (df self)
    ∧ (unique_values e = 0 → Forall isna (s_values s)).
Proof.
  intros Hwf Hm He.
  destruct (calculate_consistency_entry kind _ _ _ _ _ Hm He) as (s & Hs & Hof).
  apply consistency_of_Ok in Hof as [Hu _].
  rewrite value_counts_length in Hu.
  exists s. split; [done|]. rewrite Hu. split; [|split].
  - split; [unfold distinct_non_null; lia | apply distinct_le_series_count].
  - pose proof (series_count_bounds s) as Hb.
    rewrite (wf_df_column _ _ _ Hwf Hs) in Hb. unfold len_df. lia.
  - intros H0. apply Forall_forall. intros x Hx.
    destruct (decide (isna x)) as [|Hna]; [done|]. exfalso.
    assert (x ∈ remove_dups (filter notna (s_values s))) as Hin.
    { apply elem_of_remove_dups, list_elem_of_filter. by split. }
    unfold distinct_non_null in H0.
    destruct (remove_dups (filter notna (s_values s)));
      [by apply elem_of_nil in Hin | simpl in H0; lia].
Qed.

Lemma unique_values_bounds_witness :
  ∃ s,
    lookup_col (data half_null_df) "status" = Some s
    ∧ 0 ≤ 2 ≤ series_count s
    ∧ series_count s ≤ len_df half_null_df
    ∧ (2 = 0 → Forall isna (s_values s)).
Proof.
  eapply (unique_values_bounds stable_kind None (mkDashboard half_null_df
      no_metrics) _
            "status"
            {| unique_values := 2; unique_ratio := 200 # 4;
               most_common := [(Str "Open", 1); (Str "Closed", 1)] |}).
  - apply half_null_df_wf.
  - reflexivity.
  - reflexivity.
Defined.

(** X5.  In every entry [calculate_consistency] returns, each value of
    [most_common] has a count of at least 1, and the counts add up to at
    most the number of values of the column that are not missing: to
    exactly that number when the column has no more than three distinct
    values. *)
Theorem most_common_counts kind categorical_columns self m c e :
  (calculate_consistency kind categorical_columns self).1 = Ok m →
  m !! c = Some e →
  ∃ s,
    lookup_col (data (df self)) c = Some s
    ∧ (∀ v n, (v, n) ∈ most_common e → 1 ≤ n)
    ∧ sum_Z (most_common e).*2 ≤ series_count s
    ∧ (unique_values e ≤ 3 → sum_Z (most_common e).*2 = series_count s).
Proof.
  intros Hm He.
  destruct (calculate_consistency_entry kind _ _ _ _ _ Hm He) as (s & Hs & Hof).
  apply consistency_of_Ok in Hof as [Hu Hmc].
  exists s. split; [done|]. rewrite Hmc, Hu. split; [|split].
  - intros v n Hin. apply (value_counts_positive kind s v).
    apply elem_of_take in Hin as (i & Hi & _).
    by eapply list_elem_of_lookup_2.
  - rewrite <-(value_counts_sum kind s).
    rewrite <-(take_drop 3 (value_counts kind s)) at 2.
    rewrite fmap_app, sum_Z_app.
    assert (0 ≤ sum_Z (drop 3 (value_counts kind s)).*2); [|lia].
    apply sum_Z_nonneg, Forall_forall. intros n Hn.
    apply list_elem_of_fmap in Hn as ([v n'] & -> & Hin).
    assert ((v, n') ∈ value_counts kind s) as Hin'.
    { rewrite <-(take_drop 3 (value_counts kind s)). apply elem_of_app. by
        right. }
    apply value_counts_positive in Hin'. simpl. lia.
  - intros Hle. rewrite take_ge by lia. apply value_counts_sum.
Qed.

Lemma most_common_counts_witness :
  ∃ s,
    lookup_col (data ex_df) "status" = Some s
    ∧ (∀ v n, (v, n) ∈ [(Str "Open", 2); (Str "Closed", 1)] → 1 ≤ n)
    ∧ sum_Z [(Str "Open", 2); (Str "Closed", 1)].*2 ≤ series_count s
    ∧ (2 ≤ 3 → sum_Z [(Str "Open", 2); (Str "Closed", 1)].*2
                = series_count s).
Proof.
  eapply (most_common_counts stable_kind (Some ["status"%string])
            (mkDashboard ex_df no_metrics) _ "status"
            {| unique_values := 2; unique_ratio := 200 # 3;
               most_common := [(Str "Open", 2); (Str "Closed", 1)] |}).
  - reflexivity.
  - reflexivity.
Defined.

(** ** Calling a method again *)

Lemma assign_col_assign_col cols col s s' :
  assign_col (assign_col cols col s) col s' = assign_col cols col s'.
Proof.
  induction cols as [|[k s0] rest IH]; simpl.
  - by rewrite decide_True.
  - destruct (decide (k = col)) as [->|Hk]; simpl.
    + by rewrite decide_True.
    + rewrite decide_False by done. by rewrite IH.
Qed.

Lemma parsed_cell_parsed_cell parse_datetime c :
  parsed_cell parse_datetime (parsed_cell parse_datetime c)
  = parsed_cell parse_datetime c.
Proof.
  destruct c as [|str|n|t|t]; try reflexivity. simpl.
  by destruct (parse_datetime str).
Qed.

Lemma parsed_cell_not_unparsable parse_datetime c :
  ¬ unparsable parse_datetime (parsed_cell parse_datetime c).
Proof.
  intros (str & Hc & _). destruct c as [|str'|n|t|t]; try done.
  simpl in Hc. by destruct (parse_datetime str').
Qed.

Lemma to_datetime_idem parse_datetime s dates :
  to_datetime parse_datetime s = Ok dates →
  to_datetime parse_datetime dates = Ok dates.
Proof.
  unfold to_datetime.
  destruct (to_datetime_cells parse_datetime (s_values s)) as [cells|]
    eqn:Hcells; simpl; [|done].
  apply to_datetime_cells_inv in Hcells as [_ ->].
  destruct (_ && _) eqn:Hmixed; [done|]. intros [= <-]. simpl.
  rewrite to_datetime_cells_Ok.
  - rewrite <-list_fmap_compose.
    rewrite (list_fmap_ext _ (parsed_cell parse_datetime) (s_values s))
      by (intros; apply parsed_cell_parsed_cell).
    simpl. by rewrite Hmixed.
  - apply Forall_fmap, Forall_forall. intros c _.
    apply parsed_cell_not_unparsable.
Qed.

(** X6.  Each of the three computations is idempotent: called a second
    time with the same arguments (and, for timeliness, at the same clock
    reading), it returns what the first call returned and leaves the
    dataset and the stored metrics as the first call left them.  For
    [calculate_timeliness] this holds although the first call rewrote the
    date column: timestamps are parsed to themselves. *)
Theorem calculations_idempotent
  (parse_datetime : string → parsed) (float_mean : list Z → Z)
  (kind : sort_kind) now date_column
  columns categorical_columns self :
  calculate_completeness columns (calculate_completeness columns self).2
  = calculate_completeness columns self
  ∧ calculate_consistency kind categorical_columns
      (calculate_consistency kind categorical_columns self).2
    = calculate_consistency kind categorical_columns self
  ∧ calculate_timeliness parse_datetime float_mean now date_column
      (calculate_timeliness parse_datetime float_mean now date_column self).2
    = calculate_timeliness parse_datetime float_mean now date_column self.
Proof.
  split; [|split].
  - unfold calculate_completeness.
    destruct (completeness_loop (df self) _ ∅) as [scores|e] eqn:Hl; simpl.
    + by rewrite Hl.
    + by rewrite Hl.
  - unfold calculate_consistency.
    destruct (consistency_loop kind (df self) _ ∅) as [m|e] eqn:Hl; simpl.
    + by rewrite Hl.
    + by rewrite Hl.
  - destruct (decide (date_column ∈ df_columns (df self))) as [Hcol|Hcol].
    + apply lookup_col_is_Some in Hcol as [s Hs].
      destruct (to_datetime parse_datetime s) as [dates|e] eqn:Hd.
      * rewrite (calculate_timeliness_parsed _ _ _ _ self _ _ Hs Hd).
        pose proof (to_datetime_idem _ _ _ Hd) as Hd'.
        destruct (time_differences now dates) as [tds|e] eqn:Htd; cbn [snd].
        -- erewrite calculate_timeliness_parsed; [|simpl|exact Hd'].
           ++ rewrite Htd. unfold df_setitem. simpl.
              by rewrite assign_col_assign_col.
           ++ unfold df_setitem. simpl. rewrite lookup_assign_col.
              by rewrite decide_True.
        -- erewrite calculate_timeliness_parsed; [|simpl|exact Hd'].
           ++ rewrite Htd. unfold df_setitem. simpl.
              by rewrite assign_col_assign_col.
           ++ unfold df_setitem. simpl. rewrite lookup_assign_col.
              by rewrite decide_True.
      * assert (calculate_timeliness parse_datetime float_mean now
                  date_column self = (Raise e, self)) as Hr.
        { unfold calculate_timeliness. rewrite bool_decide_eq_true_2
            by (apply lookup_col_is_Some; by rewrite Hs).
          unfold df_getitem. rewrite Hs. simpl. by rewrite Hd. }
        rewrite Hr. simpl. by rewrite Hr.
    + rewrite (calculate_timeliness_absent _ _ _ _ self) by done. simpl.
      by rewrite calculate_timeliness_absent.
Qed.

(** ** The order of the computations *)

Lemma elem_of_lookup_col cols c s :
  NoDup cols.*1 → (c, s) ∈ cols ↔ lookup_col cols c = Some s.
Proof.
  intros Hnd. split; [|apply lookup_col_Some].
  induction cols as [|[k s0] rest IH]; simpl; [by intros ?%elem_of_nil|].
  apply NoDup_cons in Hnd as [Hk Hnd].
  intros [[= -> ->]|Hin]%elem_of_cons.
  - by rewrite decide_True.
  - rewrite decide_False; [by apply IH|]. intros ->. apply Hk.
    apply list_elem_of_fmap. by exists (c, s).
Qed.

Lemma elem_of_select_dtypes_object frame c :
  NoDup (data frame).*1 →
  c ∈ select_dtypes_object frame
  ↔ ∃ s, lookup_col (data frame) c = Some s ∧ s_dtype s = dt_object.
Proof.
  intros Hnd. unfold select_dtypes_object. rewrite list_elem_of_fmap. split.
  - intros ([k s] & -> & [Hdt Hin]%list_elem_of_filter).
    exists s. split; [by apply elem_of_lookup_col | done].
  - intros (s & Hs & Hdt). exists (c, s). split; [done|].
    apply list_elem_of_filter. split; [done|]. by apply elem_of_lookup_col.
Qed.





(** ** Reports *)

Lemma metrics_empty_true m : metrics_empty m = true → m = no_metrics.
Proof.
  destruct m as [[?|] [?|] [?|]]; unfold metrics_empty; simpl; done.
Qed.

(** X9.  On a dataset without the column [created_date], a first
    [generate_report] succeeds (provided the dataset has a record or no
    categorical column): the report carries the completeness and the
    consistency metrics and no timeliness entry, and the dataset is left as
    it was. *)
Theorem report_without_date_column
  (parse_datetime : string → parsed) (float_mean : list Z → Z)
  (kind : sort_kind) now stamp self :
  metrics_empty (metrics self) = true →
  "created_date"%string ∉ df_columns (df self) →
  (0 < nrows (df self))%nat ∨ select_dtypes_object (df self) = [] →
  ∃ scores m,
    let stored := {| m_completeness := Some scores;
                     m_timeliness := None;
                     m_consistency := Some m |} in
    generate_report parse_datetime float_mean kind now stamp self
    = (Ok {| report_generated := stamp;
             dataset_size := len_df (df self);
             report_metrics := stored |},
       {| df := df self; metrics := stored |}).
Proof.
  intros Hm%metrics_empty_true Hcol Hn.
  destruct self as [frame ms]. simpl in *. subst ms.
  destruct (calculate_completeness_run None (mkDashboard frame no_metrics))
    as [scores Hc]; [by intros c ?%elem_of_nil|].
  simpl in Hc.
  set (self1 := {| df := frame;
                   metrics := {| m_completeness := Some scores;
                                 m_timeliness := None;
                                 m_consistency := None |} |}) in Hc.
  destruct (calculate_consistency_run kind None self1) as [m Hk];
    [done | by intros c ?%elem_of_nil|].
  exists scores, m. unfold generate_report, mbind. simpl.
  rewrite Hc. rewrite (calculate_timeliness_absent _ _ _ _ self1) by done.
  rewrite Hk. reflexivity.
Qed.

Lemma report_without_date_column_witness :
  ∃ scores m,
    let stored := {| m_completeness := Some scores;
                     m_timeliness := None;
                     m_consistency := Some m |} in
    generate_report parse_iso_date exact_mean stable_kind noon_jan_3 noon_jan_1
      (mkDashboard undated_df no_metrics)
    = (Ok {| report_generated := noon_jan_1;
             dataset_size := len_df undated_df;
             report_metrics := stored |},
       {| df := undated_df; metrics := stored |}).
Proof.
  apply (report_without_date_column parse_iso_date exact_mean stable_kind
      noon_jan_3 noon_jan_1
           (mkDashboard undated_df no_metrics)).
  - reflexivity.
  - apply (bool_decide_unpack _). reflexivity.
  - left. simpl. lia.
Defined.

(** X10.  When the date column holds a value that cannot be parsed, a
    first [generate_report] raises the parse error after the completeness
    scores have been stored.  The dataset is unchanged, but the object is
    left with these scores alone, and a later [generate_report] takes them
    for the metrics: it returns a report with completeness only, and
    raises nothing. *)
Theorem report_after_failed_report
  (parse_datetime : string → parsed) (float_mean : list Z → Z)
  (kind : sort_kind) now stamp now' stamp' self s :
  metrics_empty (metrics self) = true →
  lookup_col (data (df self)) "created_date" = Some s →
  Exists (unparsable parse_datetime) (s_values s) →
  ∃ str scores,
    let left_behind :=
      {| df := df self;
         metrics := {| m_completeness := Some scores;
                       m_timeliness := None;
                       m_consistency := None |} |} in
    Str str ∈ s_values s
    ∧ parse_datetime str = Unparsable
    ∧ generate_report parse_datetime float_mean kind now stamp self
      = (Raise (DateParseError str), left_behind)
    ∧ generate_report parse_datetime float_mean kind now' stamp' left_behind
      = (Ok {| report_generated := stamp';
               dataset_size := len_df (df self);
               report_metrics := metrics left_behind |}, left_behind).
Proof.
  intros Hm%metrics_empty_true Hs Hex.
  destruct self as [frame ms]. simpl in *. subst ms.
  destruct (calculate_completeness_run None (mkDashboard frame no_metrics))
    as [scores Hc]; [by intros c ?%elem_of_nil|].
  simpl in Hc.
  set (self1 := {| df := frame;
                   metrics := {| m_completeness := Some scores;
                                 m_timeliness := None;
                                 m_consistency := None |} |}) in Hc.
  destruct (calculate_timeliness_Raise parse_datetime float_mean now
      "created_date"
              self1 s Hs Hex) as (str & Hin & Hstr & Hr).
  exists str, scores. split; [done|]. split; [done|]. split.
  - unfold generate_report, mbind. simpl. by rewrite Hc, Hr.
  - by apply generate_report_cached.
Qed.

Lemma report_after_failed_report_witness :
  ∃ str scores,
    let left_behind :=
      {| df := bad_date_df;
         metrics := {| m_completeness := Some scores;
                       m_timeliness := None;
                       m_consistency := None |} |} in
    Str str ∈ [Str "2024-01-01"; Str "unknown"]
    ∧ parse_iso_date str = Unparsable
    ∧ generate_report parse_iso_date exact_mean stable_kind noon_jan_3
        noon_jan_3
        (mkDashboard bad_date_df no_metrics)
      = (Raise (DateParseError str), left_behind)
    ∧ generate_report parse_iso_date exact_mean stable_kind noon_jan_1
        noon_jan_1 left_behind
      = (Ok {| report_generated := noon_jan_1;
               dataset_size := len_df bad_date_df;
               report_metrics := metrics left_behind |}, left_behind).
Proof.
  apply (report_after_failed_report parse_iso_date exact_mean stable_kind
      noon_jan_3 noon_jan_3
           noon_jan_1 noon_jan_1 (mkDashboard bad_date_df no_metrics)
           (mkSeries dt_object [Str "2024-01-01"; Str "unknown"])).
  - reflexivity.
  - reflexivity.
  - apply Exists_cons_tl, Exists_cons_hd. by exists "unknown"%string.
Defined.

(** X11.  On an object without stored metrics, calling the three
    computations one after the other with their default arguments and then
    [generate_report], as [main] does, comes to the same as calling
    [generate_report] alone: the same outcome (report or exception) and the
    same dataset and stored metrics, when the clock reads the same for the
    timeliness. *)
Theorem explicit_calls_then_report
  (parse_datetime : string → parsed) (float_mean : list Z → Z)
  (kind : sort_kind) now now' stamp self :
  metrics_empty (metrics self) = true →
  (do! _ := calculate_completeness None in
   do! _ := calculate_timeliness parse_datetime float_mean now "created_date" in
   do! _ := calculate_consistency kind None in
   generate_report parse_datetime float_mean kind now' stamp) self
  = generate_report parse_datetime float_mean kind now stamp self.
Proof.
  intros Hm.
  destruct (generate_report parse_datetime float_mean kind now stamp self) as
      [out self']
    eqn:Hg.
  pose proof Hg as Hg'. revert Hg.
  unfold generate_report at 1. unfold mbind. rewrite Hm.
  destruct (calculate_completeness None self) as [[a1|e1] s1]; [|done].
  destruct (calculate_timeliness parse_datetime float_mean now "created_date"
      s1)
    as [[a2|e2] s2]; [|done].
  destruct (calculate_consistency kind None s2) as [[a3|e3] s3]; [|done].
  intros [= <- <-].
  apply generate_report_metrics in Hg' as [Hne _].
  by rewrite generate_report_cached.
Qed.

Lemma explicit_calls_then_report_witness :
  (do! _ := calculate_completeness None in
   do! _ := calculate_timeliness parse_iso_date exact_mean noon_jan_3
       "created_date" in
   do! _ := calculate_consistency stable_kind None in
   generate_report parse_iso_date exact_mean stable_kind noon_jan_1 noon_jan_1)
    (mkDashboard ex_df no_metrics)
  = generate_report parse_iso_date exact_mean stable_kind noon_jan_3 noon_jan_1
      (mkDashboard ex_df no_metrics).
Proof.
  apply (explicit_calls_then_report parse_iso_date exact_mean stable_kind
      noon_jan_3 noon_jan_1
           noon_jan_1 (mkDashboard ex_df no_metrics)).
  reflexivity.
Defined.

(** * The summary printed by [main] *)

(** ** Items of a dictionary *)

Lemma filter_ne_not_elem_of (k : string) (keys : list string) :
  k ∉ keys → filter (λ x, x ≠ k) keys = keys.
Proof.
  induction keys as [|x keys IH]; [done|].
  rewrite not_elem_of_cons. intros [Hx Hk].
  rewrite filter_cons_True by congruence. f_equal. by apply IH.
Qed.

Lemma first_seen_NoDup (keys : list string) :
  NoDup keys → first_seen keys = keys.
Proof.
  induction 1 as [|k keys Hk _ IH]; [done|]. simpl. rewrite IH. f_equal.
  by apply filter_ne_not_elem_of.
Qed.

Lemma elem_of_first_seen (keys : list string) k :
  k ∈ first_seen keys ↔ k ∈ keys.
Proof.
  induction keys as [|x keys IH]; [done|]. simpl.
  rewrite !elem_of_cons, list_elem_of_filter, IH.
  destruct (decide (k = x)) as [->|Hne].
  - split; by left.
  - split; [intros [?|[_ ?]]; [done | by right] | intros [?|?]; [done|]].
    right. by split.
Qed.

Lemma elem_of_dict_items {V} keys (d : gmap string V) k v :
  (k, v) ∈ dict_items keys d ↔ k ∈ keys ∧ d !! k = Some v.
Proof.
  unfold dict_items. rewrite list_elem_of_omap. split.
  - intros (k' & Hk & Hv). rewrite elem_of_first_seen in Hk.
    destruct (d !! k') as [v'|] eqn:Hd; [|done].
    simplify_eq/=. by split.
  - intros [Hk Hv]. exists k. split; [by apply elem_of_first_seen|].
    by rewrite Hv.
Qed.

Lemma dict_items_keys {V} keys (d : gmap string V) :
  NoDup keys → (∀ k, k ∈ keys → is_Some (d !! k)) →
  (dict_items keys d).*1 = keys.
Proof.
  intros Hnd Hall. unfold dict_items. rewrite first_seen_NoDup by done.
  clear Hnd. induction keys as [|k keys IH]; [done|]. csimpl.
  destruct (Hall k) as [v ->]; [left|]. csimpl. f_equal.
  apply IH. intros x Hx. apply Hall. by right.
Qed.

(** ** The sort of the scores *)

Lemma insert_by_score_perm x l : insert_by_score x l ≡ₚ x :: l.
Proof.
  induction l as [|y l IH]; simpl; [done|].
  destruct (f64_lt x.2 y.2); [|done]. rewrite IH. apply Permutation_swap.
Qed.

Lemma sorted_by_score_perm l : sorted_by_score l ≡ₚ l.
Proof.
  induction l as [|x l IH]; simpl; [done|].
  rewrite insert_by_score_perm. by f_equiv.
Qed.

Lemma score_ge_trans p q r : score_ge p q → score_ge q r → score_ge p r.
Proof.
  unfold score_ge. destruct p.2, q.2, r.2; try done.
  intros H1 H2. by eapply Qle_trans.
Qed.

Lemma f64_lt_score_ge x y :
  is_percentage x.2 → is_percentage y.2 →
  if f64_lt x.2 y.2 then score_ge y x else score_ge x y.
Proof.
  unfold score_ge. destruct x.2 as [a| |], y.2 as [b| |]; try done.
  intros _ _. simpl.
  destruct (Qle_bool b a) eqn:Hle; simpl.
  - by apply Qle_bool_iff.
  - destruct (Qlt_le_dec a b) as [Hlt|Hge].
    + by apply Qlt_le_weak.
    + apply Qle_bool_iff in Hge. congruence.
Qed.

Lemma insert_by_score_sorted x l :
  is_percentage x.2 → Forall (λ y, is_percentage y.2) l →
  StronglySorted score_ge l → StronglySorted score_ge (insert_by_score x l).
Proof.
  intros Hx. induction l as [|y l IH]; simpl; intros Hl Hs.
  - repeat constructor.
  - apply Forall_cons in Hl as [Hy Hl].
    apply StronglySorted_cons in Hs as [Hyl Hs].
    pose proof (f64_lt_score_ge x y Hx Hy) as Hxy.
    destruct (f64_lt x.2 y.2).
    + apply StronglySorted_cons. split; [|by apply IH].
      rewrite insert_by_score_perm. by apply Forall_cons.
    + apply StronglySorted_cons. split; [|by apply StronglySorted_cons].
      apply Forall_cons. split; [done|].
      eapply Forall_impl; [exact Hyl|]. intros z Hz.
      by eapply score_ge_trans.
Qed.

Lemma sorted_by_score_sorted l :
  Forall (λ y, is_percentage y.2) l →
  StronglySorted score_ge (sorted_by_score l).
Proof.
  induction 1 as [|x l Hx Hl IH]; simpl; [constructor|].
  apply insert_by_score_sorted; [done| |done].
  by rewrite sorted_by_score_perm.
Qed.

(** ** The run of [main] *)

Lemma main_with_dates parse_datetime float_mean kind body now now' stamp s :
  (0 < nrows body)%nat →
  lookup_col (data body) "created_date" = Some s →
  Forall (λ c, ¬ unparsable parse_datetime c) (s_values s) →
  naive_dates parse_datetime s →
  Forall in_int64 (ages parse_datetime now s) →
  ∃ scores tm consistency,
    (calculate_completeness None (mkDashboard body no_metrics)).1 = Ok scores
    ∧ (calculate_timeliness parse_datetime float_mean now "created_date"
         (mkDashboard body no_metrics)).1 = Ok (Some tm)
    ∧ (calculate_consistency kind None
         (calculate_timeliness parse_datetime float_mean now "created_date"
            (mkDashboard body no_metrics)).2).1 = Ok consistency
    ∧ main parse_datetime float_mean kind 200 body now now' stamp
      = (([Title "=== Data Quality Dashboard Summary ===";
           DatasetSize (len_df body);
           Title "Completeness Scores (Top 5):"]
          ++ ((λ kv, CompletenessLine kv.1 kv.2)
              <$> take 5 (sorted_by_score
                            (dict_items (df_columns body) scores)))
          ++ [Title "Timeliness Metrics:"])
         ++ ((λ kv, TimelinessLine kv.1 kv.2) <$> timeliness_items tm)
         ++ [Title "Consistency Issues:"]
         ++ high_cardinality_lines
              (dict_items
                 (select_dtypes_object
                    (df (calculate_timeliness parse_datetime float_mean now
                           "created_date" (mkDashboard body no_metrics)).2))
                 consistency),
         None).
Proof.
  intros Hn Hs Hall Hnaive Hrange.
  destruct (calculate_completeness_run None (mkDashboard body no_metrics))
    as [scores Hc]; [by intros c ?%elem_of_nil|].
  simpl in Hc.
  set (self1 := {| df := body;
                   metrics := {| m_completeness := Some scores;
                                 m_timeliness := None;
                                 m_consistency := None |} |}) in Hc.
  pose proof (calculate_timeliness_Ok parse_datetime float_mean now
                "created_date" self1 s Hs Hall Hnaive Hrange) as Ht.
  pose proof (calculate_timeliness_Ok parse_datetime float_mean now
                "created_date" (mkDashboard body no_metrics) s Hs Hall
                Hnaive Hrange) as Ht0.
  simpl in Ht, Ht0.
  set (tm := {| average_age_days := _ |}) in Ht, Ht0.
  set (frame2 := df_setitem body "created_date" _) in Ht, Ht0.
  set (self2 := {| df := frame2;
                   metrics := {| m_completeness := Some scores;
                                 m_timeliness := Some tm;
                                 m_consistency := None |} |}) in Ht.
  destruct (calculate_consistency_run kind None self2) as [m Hk];
    [by left | by intros c ?%elem_of_nil|].
  exists scores, tm, m. rewrite Hc, Ht0. cbn [fst snd df].
  split; [done|]. split; [done|]. split.
  { rewrite (calculate_consistency_fst kind None _ self2) by done. by rewrite
      Hk. }
  unfold main, init, fetch_nyc_311_data. rewrite decide_True by done.
  rewrite Hc, Ht, Hk. rewrite generate_report_cached by done.
  reflexivity.
Qed.

(** X12.  On data without the column [created_date] (with a record, or
    without categorical columns), [main] does not complete: the metrics are
    computed and the report is made, the summary is printed up to the
    title of the timeliness part, completeness lines included, and there
    [main] ends in the [AttributeError] of asking [None] for its items. *)
Theorem main_fails_without_date_column
  (parse_datetime : string → parsed) (float_mean : list Z → Z)
  (kind : sort_kind) body now now' stamp :
  "created_date"%string ∉ df_columns body →
  (0 < nrows body)%nat ∨ select_dtypes_object body = [] →
  ∃ scores,
    (calculate_completeness None (mkDashboard body no_metrics)).1 = Ok scores
    ∧ main parse_datetime float_mean kind 200 body now now' stamp
      = ([Title "=== Data Quality Dashboard Summary ===";
          DatasetSize (len_df body);
          Title "Completeness Scores (Top 5):"]
         ++ ((λ kv, CompletenessLine kv.1 kv.2)
             <$> take 5 (sorted_by_score
                           (dict_items (df_columns body) scores)))
         ++ [Title "Timeliness Metrics:"],
         Some AttributeError).
Proof.
  intros Hcol Hn.
  destruct (calculate_completeness_run None (mkDashboard body no_metrics))
    as [scores Hc]; [by intros c ?%elem_of_nil|].
  simpl in Hc.
  set (self1 := {| df := body;
                   metrics := {| m_completeness := Some scores;
                                 m_timeliness := None;
                                 m_consistency := None |} |}) in Hc.
  destruct (calculate_consistency_run kind None self1) as [m Hk];
    [done | by intros c ?%elem_of_nil|].
  exists scores. rewrite Hc. split; [done|].
  unfold main, init, fetch_nyc_311_data. rewrite decide_True by done.
  rewrite Hc. rewrite (calculate_timeliness_absent _ _ _ _ self1) by done.
  rewrite Hk. rewrite generate_report_cached by done.
  reflexivity.
Qed.

Lemma main_fails_without_date_column_witness :
  ∃ scores,
    (calculate_completeness None (mkDashboard undated_df no_metrics)).1
    = Ok scores
    ∧ main parse_iso_date exact_mean stable_kind 200 undated_df noon_jan_3
        noon_jan_3 noon_jan_1
      = ([Title "=== Data Quality Dashboard Summary ===";
          DatasetSize (len_df undated_df);
          Title "Completeness Scores (Top 5):"]
         ++ ((λ kv, CompletenessLine kv.1 kv.2)
             <$> take 5 (sorted_by_score
                           (dict_items (df_columns undated_df) scores)))
         ++ [Title "Timeliness Metrics:"],
         Some AttributeError).
Proof.
  apply (main_fails_without_date_column parse_iso_date exact_mean stable_kind
      undated_df
           noon_jan_3 noon_jan_3 noon_jan_1).
  - apply (bool_decide_unpack _). reflexivity.
  - left. simpl. lia.
Defined.

(** ** The completeness lines *)

Lemma completeness_scores_percentages self scores :
  wf_df (df self) → (0 < nrows (df self))%nat →
  (calculate_completeness None self).1 = Ok scores →
  ∀ c, (c ∈ df_columns (df self) →
          ∃ x, scores !! c = Some x ∧ is_percentage x)
       ∧ (∀ x, scores !! c = Some x → is_percentage x).
Proof.
  intros Hwf Hn Hsc.
  destruct (calculate_completeness_Ok None self) as (scores' & Hsc' & Hent);
    [by intros c ?%elem_of_nil|].
  rewrite Hsc in Hsc'. injection Hsc' as <-.
  unfold or_default in Hent. simpl in Hent.
  assert (∀ c, c ∈ df_columns (df self) →
               ∃ x, scores !! c = Some x ∧ is_percentage x) as Hin.
  { intros c Hc. destruct (proj1 (Hent c) Hc) as (s & Hs & Hcs).
    eexists. split; [exact Hcs|].
    rewrite completeness_score_nonempty by done. simpl.
    apply ratio_bounds; [|unfold len_df; lia].
    pose proof (series_count_bounds s) as Hb.
    by rewrite (wf_df_column _ _ _ Hwf Hs) in Hb. }
  intros c. split; [apply Hin|]. intros x Hx.
  destruct (decide (c ∈ df_columns (df self))) as [Hc|Hc].
  - destruct (Hin c Hc) as (x' & Hx' & Hp). rewrite Hx in Hx'.
    by injection Hx' as <-.
  - rewrite (proj2 (Hent c) Hc) in Hx. done.
Qed.

Lemma high_cardinality_lines_shape items l :
  l ∈ high_cardinality_lines items → ∃ c r, l = HighCardinality c r.
Proof.
  unfold high_cardinality_lines. rewrite list_elem_of_omap.
  intros (kv & _ & Hkv). destruct (negb _); [|done].
  injection Hkv as <-. eauto.
Qed.

(** X13.  When the data have a record and a date column that parses
    into timestamps without time zone, none so far from the current time
    that the difference overflows, [main] completes, and the completeness
    part of its summary lists the columns with the highest scores: five of
    them, or all when there are fewer, in decreasing order of score; a
    column that is not listed scores no more than any that is.  No other
    line of the summary is a completeness line. *)
Theorem main_top_completeness
  (parse_datetime : string → parsed) (float_mean : list Z → Z)
  (kind : sort_kind) body now now' stamp s :
  wf_df body → (0 < nrows body)%nat →
  lookup_col (data body) "created_date" = Some s →
  Forall (λ c, ¬ unparsable parse_datetime c) (s_values s) →
  naive_dates parse_datetime s →
  Forall in_int64 (ages parse_datetime now s) →
  ∃ scores top rest after,
    (calculate_completeness None (mkDashboard body no_metrics)).1 = Ok scores
    ∧ main parse_datetime float_mean kind 200 body now now' stamp
      = (([Title "=== Data Quality Dashboard Summary ===";
           DatasetSize (len_df body);
           Title "Completeness Scores (Top 5):"]
          ++ ((λ kv, CompletenessLine kv.1 kv.2) <$> top)
          ++ [Title "Timeliness Metrics:"])
         ++ after, None)
    ∧ (∀ c x, CompletenessLine c x ∉ after)
    ∧ length top = (5 `min` length (df_columns body))%nat
    ∧ StronglySorted score_ge (top ++ rest)
    ∧ (top ++ rest).*1 ≡ₚ df_columns body
    ∧ (∀ c x, (c, x) ∈ top ++ rest → scores !! c = Some x).
Proof.
  intros Hwf Hn Hs Hall Hnaive Hrange.
  destruct (main_with_dates parse_datetime float_mean kind body now now' stamp s
              Hn Hs Hall Hnaive Hrange)
    as (scores & tm & m & Hsc & _ & _ & Hmain).
  pose proof (completeness_scores_percentages
                (mkDashboard body no_metrics) scores Hwf Hn Hsc) as Hpct.
  simpl in Hpct.
  set (items := dict_items (df_columns body) scores) in *.
  assert (items.*1 = df_columns body) as Hkeys.
  { apply dict_items_keys; [apply Hwf|].
    intros c Hc. destruct (proj1 (Hpct c) Hc) as (x & -> & _). by eexists. }
  assert (Forall (λ y, is_percentage y.2) items) as Hitems.
  { apply Forall_forall. intros [c x] [_ Hx]%elem_of_dict_items.
    by apply (proj2 (Hpct c)). }
  exists scores, (take 5 (sorted_by_score items)),
    (drop 5 (sorted_by_score items)).
  eexists. split; [done|]. split; [exact Hmain|].
  rewrite take_drop, length_take. split; [|split; [|split; [|split]]].
  - intros c x Hin.
    apply elem_of_app in Hin as [Hin|Hin].
    { apply list_elem_of_fmap in Hin as (kv & Heq & _). discriminate Heq. }
    apply elem_of_cons in Hin as [Heq|Hin]; [discriminate Heq|].
    apply high_cardinality_lines_shape in Hin as (c' & r & Heq).
    discriminate Heq.
  - f_equal. rewrite <-Hkeys, length_fmap.
    apply Permutation_length, sorted_by_score_perm.
  - by apply sorted_by_score_sorted.
  - by rewrite sorted_by_score_perm, Hkeys.
  - intros c x Hin. rewrite sorted_by_score_perm in Hin.
    by apply elem_of_dict_items in Hin as [_ Hx].
Qed.

Lemma wide_df_wf : wf_df wide_df.
Proof.
  split.
  - repeat constructor.
  - apply (bool_decide_unpack _). reflexivity.
Qed.

Lemma main_top_completeness_witness :
  ∃ scores top rest after,
    (calculate_completeness None (mkDashboard wide_df no_metrics)).1
    = Ok scores
    ∧ main parse_iso_date exact_mean stable_kind 200 wide_df noon_jan_3
        noon_jan_3 noon_jan_3
      = (([Title "=== Data Quality Dashboard Summary ===";
           DatasetSize (len_df wide_df);
           Title "Completeness Scores (Top 5):"]
          ++ ((λ kv, CompletenessLine kv.1 kv.2) <$> top)
          ++ [Title "Timeliness Metrics:"])
         ++ after, None)
    ∧ (∀ c x, CompletenessLine c x ∉ after)
    ∧ length top = (5 `min` length (df_columns wide_df))%nat
    ∧ StronglySorted score_ge (top ++ rest)
    ∧ (top ++ rest).*1 ≡ₚ df_columns wide_df
    ∧ (∀ c x, (c, x) ∈ top ++ rest → scores !! c = Some x).
Proof.
  apply (main_top_completeness parse_iso_date exact_mean stable_kind wide_df
      noon_jan_3 noon_jan_3
           noon_jan_3
           (mkSeries dt_object [Str "2024-01-01"; Str "2024-01-02"])).
  - apply wide_df_wf.
  - simpl. lia.
  - reflexivity.
  - repeat constructor; intros (str & [= <-] & Hstr); discriminate Hstr.
  - repeat constructor.
  - apply (bool_decide_unpack _). reflexivity.
Defined.

(** ** The high cardinality lines *)

Lemma ratio_above_80 (d n : Z) :
  0 < n →
  Qle_bool (inject_Z d / inject_Z n * 100) 80 = false ↔ 4 * n < 5 * d.
Proof.
  intros Hn. destruct n as [|p|p]; try lia.
  rewrite <-not_true_iff_false, Qle_bool_iff.
  unfold Qle, Qdiv, Qmult, Qinv, inject_Z; simpl. lia.
Qed.

Lemma elem_of_high_cardinality_lines items c r :
  HighCardinality c r ∈ high_cardinality_lines items
  ↔ ∃ e, (c, e) ∈ items ∧ unique_ratio e = r ∧ Qle_bool r 80 = false.
Proof.
  unfold high_cardinality_lines. rewrite list_elem_of_omap. split.
  - intros ([k e] & Hin & Hkv). simpl in Hkv.
    destruct (Qle_bool (unique_ratio e) 80) eqn:Hle; simpl in Hkv; [done|].
    injection Hkv as -> <-. by exists e.
  - intros (e & Hin & <- & Hle). exists (c, e). split; [done|].
    simpl. by rewrite Hle.
Qed.

(** X14.  When the data have a record and a date column that parses
    into timestamps without time zone, none so far from the current time
    that the difference overflows, the summary of [main] flags a column as
    of high cardinality exactly when it is a column of strings other than
    [created_date] whose distinct values (missing ones aside) are more
    than four fifths of the records, and gives its [unique_ratio].  The
    date column itself is never flagged: by then it holds timestamps. *)
Theorem main_high_cardinality
  (parse_datetime : string → parsed) (float_mean : list Z → Z)
  (kind : sort_kind) body now now' stamp s :
  wf_df body → (0 < nrows body)%nat →
  lookup_col (data body) "created_date" = Some s →
  Forall (λ c, ¬ unparsable parse_datetime c) (s_values s) →
  naive_dates parse_datetime s →
  Forall in_int64 (ages parse_datetime now s) →
  ∀ c r,
    HighCardinality c r ∈ (main parse_datetime float_mean kind 200 body now now'
        stamp).1
    ↔ c ≠ "created_date"%string
      ∧ ∃ col,
          lookup_col (data body) c = Some col
          ∧ s_dtype col = dt_object
          ∧ r = (inject_Z (distinct_non_null col)
                 / inject_Z (len_df body) * 100)%Q
          ∧ 4 * len_df body < 5 * distinct_non_null col.
Proof.
  intros Hwf Hn Hs Hall Hnaive Hrange c r.
  destruct (main_with_dates parse_datetime float_mean kind body now now' stamp s
              Hn Hs Hall Hnaive Hrange)
    as (scores & tm & m & _ & _ & Hm & Hmain).
  rewrite Hmain. cbn [fst]. clear Hmain.
  revert Hm.
  rewrite (calculate_timeliness_Ok _ float_mean now _
             (mkDashboard body no_metrics) s Hs Hall Hnaive Hrange).
  cbn [snd df].
  set (ps := {| s_dtype := dt_datetime64;
                s_values := parsed_cell parse_datetime <$> s_values s |}).
  set (self2 := {| df := df_setitem body "created_date" ps |}).
  intros Hm.
  destruct (calculate_consistency_Ok kind None self2 Hn) as (m' & Hm' & Hent);
    [by intros x ?%elem_of_nil|].
  rewrite Hm in Hm'. injection Hm' as <-.
  unfold or_default in Hent. simpl in Hent.
  assert (NoDup (data (df_setitem body "created_date" ps)).*1) as Hnd2.
  { simpl. rewrite assign_col_labels; [apply Hwf|].
    apply lookup_col_is_Some. by rewrite Hs. }
  assert (∀ x, lookup_col (data (df_setitem body "created_date" ps)) x
               = if decide (x = "created_date"%string) then Some ps
                 else lookup_col (data body) x) as Hlook.
  { intros x. simpl. apply lookup_assign_col. }
  split.
  - intros Hin.
    assert (HighCardinality c r
              ∈ high_cardinality_lines
                  (dict_items
                     (select_dtypes_object
                        (df_setitem body "created_date" ps)) m)) as Hhc.
    { repeat (apply elem_of_app in Hin as [Hin|Hin]);
        try (apply list_elem_of_fmap in Hin as (kv & Heq & _);
             discriminate Heq);
        try done.
      - repeat (apply elem_of_cons in Hin as [Heq|Hin];
                  [discriminate Heq|]).
        by apply elem_of_nil in Hin.
      - apply list_elem_of_singleton in Hin. discriminate Hin.
      - apply list_elem_of_singleton in Hin. discriminate Hin. }
    apply elem_of_high_cardinality_lines in Hhc as (e & Hitem & Hr & Hle).
    apply elem_of_dict_items in Hitem as [Hc He].
    destruct (proj1 (Hent c) Hc) as (col & e' & Hcol & He' & _ & Hr' & _).
    rewrite He in He'. injection He' as <-.
    apply elem_of_select_dtypes_object in Hc as (col' & Hcol' & Hdt);
      [|done].
    cbn [data df_setitem] in Hcol'.
    rewrite Hcol in Hcol'. injection Hcol' as <-.
    rewrite lookup_assign_col in Hcol.
    destruct (decide (c = "created_date"%string)) as [->|Hne].
    { injection Hcol as <-. discriminate Hdt. }
    split; [done|]. exists col. split; [done|]. split; [done|].
    rewrite value_counts_length in Hr'. rewrite <-Hr, Hr'.
    split; [done|].
    rewrite <-Hr, Hr' in Hle. apply ratio_above_80 in Hle; [done|].
    unfold len_df. simpl. lia.
  - intros (Hne & col & Hcol & Hdt & -> & Hlt).
    apply elem_of_app. right. apply elem_of_app. right.
    apply elem_of_app. right.
    assert (c ∈ select_dtypes_object (df_setitem body "created_date" ps))
      as Hc.
    { apply elem_of_select_dtypes_object; [done|]. exists col.
      rewrite Hlook. by rewrite decide_False. }
    destruct (proj1 (Hent c) Hc) as (col' & e & Hcol' & He & _ & Hr & _).
    rewrite lookup_assign_col, decide_False, Hcol in Hcol' by done.
    injection Hcol' as <-. rewrite value_counts_length in Hr.
    apply elem_of_high_cardinality_lines. exists e.
    split; [by apply elem_of_dict_items|]. split; [done|].
    apply ratio_above_80; [|done]. unfold len_df. lia.
Qed.

Lemma main_high_cardinality_witness :
  HighCardinality "unique_key" (200 # 2)
    ∈ (main parse_iso_date exact_mean stable_kind 200 wide_df noon_jan_3
        noon_jan_3 noon_jan_3).1
  ↔ "unique_key"%string ≠ "created_date"%string
    ∧ ∃ col,
        lookup_col (data wide_df) "unique_key" = Some col
        ∧ s_dtype col = dt_object
        ∧ 200 # 2 = (inject_Z (distinct_non_null col)
                     / inject_Z (len_df wide_df) * 100)%Q
        ∧ 4 * len_df wide_df < 5 * distinct_non_null col.
Proof.
  apply (main_high_cardinality parse_iso_date exact_mean stable_kind wide_df
      noon_jan_3 noon_jan_3
           noon_jan_3
           (mkSeries dt_object [Str "2024-01-01"; Str "2024-01-02"])).
  - apply wide_df_wf.
  - simpl. lia.
  - reflexivity.
  - repeat constructor; intros (str & [= <-] & Hstr); discriminate Hstr.
  - repeat constructor.
  - apply (bool_decide_unpack _). reflexivity.
Defined.

(** ** Runs of [main] that print nothing *)

(** X15.  [main] prints nothing unless every step before the summary
    succeeds.  When the server does not answer with status 200 it ends in
    the exception of the fetch; when a value of [created_date] cannot be
    parsed it ends in the parse error; and in general, whenever [main]
    ends in the exception of the fetch or of one of the methods, no line
    has been printed. *)
Theorem main_prints_nothing_on_failure
  (parse_datetime : string → parsed) (float_mean : list Z → Z)
  (kind : sort_kind)
  body now now' stamp :
  (∀ status_code, status_code ≠ 200 →
     main parse_datetime float_mean kind status_code body now now' stamp
     = ([], Some FetchFailed))
  ∧ (∀ s, lookup_col (data body) "created_date" = Some s →
          Exists (unparsable parse_datetime) (s_values s) →
          ∃ str,
            Str str ∈ s_values s
            ∧ parse_datetime str = Unparsable
            ∧ main parse_datetime float_mean kind 200 body now now' stamp
              = ([], Some (MethodError (DateParseError str))))
  ∧ (∀ status_code e,
       (main parse_datetime float_mean kind status_code body now now' stamp).2
       = Some e →
       e ≠ AttributeError →
       (main parse_datetime float_mean kind status_code body now now' stamp).1
       = []).
Proof.
  split; [|split].
  - intros status_code Hne. unfold main, init, fetch_nyc_311_data.
    by rewrite decide_False.
  - intros s Hs Hex.
    destruct (calculate_completeness_run None (mkDashboard body no_metrics))
      as [scores Hc]; [by intros c ?%elem_of_nil|].
    simpl in Hc.
    set (self1 := {| df := body;
                     metrics := {| m_completeness := Some scores;
                                   m_timeliness := None;
                                   m_consistency := None |} |}) in Hc.
    destruct (calculate_timeliness_Raise parse_datetime float_mean now
                "created_date" self1 s Hs Hex) as (str & Hin & Hstr & Hr).
    exists str. split; [done|]. split; [done|].
    unfold main, init, fetch_nyc_311_data. rewrite decide_True by done.
    by rewrite Hc, Hr.
  - intros status_code e. unfold main.
    destruct (init None status_code body) as [dashboard|e0]; [|done].
    destruct (calculate_completeness None dashboard) as [[scores|e1] d1];
      [|done].
    destruct (calculate_timeliness _ _ _ _ d1) as [[tm|e2] d2]; [|done].
    destruct (calculate_consistency kind None d2) as [[m|e3] d3]; [|done].
    destruct (generate_report _ _ _ _ _ d3) as [[r|e4] d4]; [|done].
    destruct tm as [tm|]; simpl; [done|]. by intros [= <-].
Qed.

Lemma main_prints_nothing_on_failure_witness :
  (main parse_iso_date exact_mean stable_kind 404 bad_date_df noon_jan_3
      noon_jan_3
     noon_jan_3
   = ([], Some FetchFailed))
  ∧ (∃ str,
       Str str ∈ [Str "2024-01-01"; Str "unknown"]
       ∧ parse_iso_date str = Unparsable
       ∧ main parse_iso_date exact_mean stable_kind 200 bad_date_df noon_jan_3
           noon_jan_3 noon_jan_3
         = ([], Some (MethodError (DateParseError str))))
  ∧ (main parse_iso_date exact_mean stable_kind 200 bad_date_df noon_jan_3
      noon_jan_3
       noon_jan_3).1
    = [].
Proof.
  destruct (main_prints_nothing_on_failure parse_iso_date exact_mean stable_kind
              bad_date_df noon_jan_3 noon_jan_3 noon_jan_3)
    as (Hfetch & Hparse & Hquiet).
  split; [|split].
  - apply Hfetch. discriminate.
  - apply (Hparse (mkSeries dt_object [Str "2024-01-01"; Str "unknown"])).
    + reflexivity.
    + apply Exists_cons_tl, Exists_cons_hd. by exists "unknown"%string.
  - apply (Hquiet 200 (MethodError (DateParseError "unknown"))).
    + reflexivity.
    + discriminate.
Defined.
